(** * YahooDownloader: the fetch-normalize pipeline and the coverage filter

    A shallow embedding of [finrl/marketdata/yahoodownloader.py].  The module
    is forty lines of Python over pandas, so the development has three layers:

    - [PyException], [result]: Python exceptions as values;
    - [pd]: the pandas operations the module calls, modelled on data frames
      kept row by row;
    - [fetch_data] and [select_equal_rows_stock], transcribed statement by
      statement in a state-and-exception monad whose state holds the local
      variables of [fetch_data] and what it printed. *)

From Stdlib Require Import String Ascii DecimalString Bool Arith ZArith QArith.
From Stdlib Require Import Lia List Permutation.
Import ListNotations.

Local Open Scope string_scope.
Local Open Scope list_scope.
Local Open Scope nat_scope.

(** ** Python exceptions *)

(** The exception classes that occur in the module.  Every one of them is a
    subclass of [Exception], so [except Exception] catches them all;
    [OtherException] stands for whatever else the vendor call may raise
    (network failure, vendor error). *)
Inductive PyException : Type :=
| UnboundLocalError (name : string)
| ValueError
| KeyError (label : string)
| AttributeError (attr : string)
| NotImplementedError
| OtherException (message : string).

Inductive result (A : Type) : Type :=
| Ok (a : A)
| Raise (e : PyException).

Arguments Ok {A} a.
Arguments Raise {A} e.

Definition is_NotImplementedError (e : PyException) : bool :=
  match e with NotImplementedError => true | _ => false end.

Definition is_Exception (e : PyException) : bool := true.

(** ** The pandas model *)

(** The operations the module calls, with the behaviour of pandas 1.x (the
    module uses [DataFrame.append] and the positional [axis] of [drop], which
    pandas 2 no longer has).  A frame is kept row by row; a series is the list
    of the cells of one column, in the order of the rows. *)
Module pd.

(** A calendar day as a [pandas.Timestamp] carries it. *)
Record Timestamp : Type := { year : N; month : N; day : N }.

(** What a cell of a frame may hold.  [NaN] and [NaT] are the two missing
    values; numbers are only ever copied, tested for being missing and compared
    for identity, so they stay as the vendor gave them. *)
Inductive cell : Type :=
| NaN
| NaT
| Num (x : Q)
| Str (s : string)
| Ts (t : Timestamp).

Definition isna (c : cell) : bool :=
  match c with NaN | NaT => true | _ => false end.

Definition notna (c : cell) : bool := negb (isna c).

Definition Timestamp_eq_dec (a b : Timestamp) : {a = b} + {a <> b}.
Proof. decide equality; apply N.eq_dec. Defined.

Definition Q_eq_dec (a b : Q) : {a = b} + {a <> b}.
Proof. decide equality; [apply Pos.eq_dec | apply Z.eq_dec]. Defined.

Definition cell_eq_dec (a b : cell) : {a = b} + {a <> b}.
Proof.
  decide equality;
    [apply Q_eq_dec | apply string_dec | apply Timestamp_eq_dec].
Defined.

Definition cell_eqb (a b : cell) : bool :=
  if cell_eq_dec a b then true else false.

(** A row is its index label and its values, one per column. *)
Definition Row : Type := (cell * list cell)%type.

(** A frame: the name of its index (if it has one), the column labels in
    order, and the rows in order. *)
Record DataFrame : Type := {
  index_name : option string;
  columns : list string;
  rows : list Row
}.

(** A [Series] is used positionally: one cell per row of its frame. *)
Definition Series : Type := list cell.

(** [pd.DataFrame()] *)
Definition new_DataFrame : DataFrame :=
  {| index_name := None; columns := []; rows := [] |}.

(** [df.shape] *)
Definition shape (df : DataFrame) : nat * nat :=
  (length (rows df), length (columns df)).

Definition has_column (label : string) (cols : list string) : bool :=
  existsb (String.eqb label) cols.

Fixpoint position (label : string) (cols : list string) : option nat :=
  match cols with
  | [] => None
  | c :: cols' =>
      if String.eqb c label then Some 0
      else option_map S (position label cols')
  end.

(** The cells of one row after [df[label] = v]: every column carrying the
    label takes the value, and a label the frame does not have becomes a new
    last column. *)
Fixpoint assign_where (label : string) (cols : list string) (v : cell)
  (cells : list cell) : list cell :=
  match cols, cells with
  | c :: cols', x :: cells' =>
      (if String.eqb c label then v else x) :: assign_where label cols' v cells'
  | _, _ => cells
  end.

Definition set_cell (label : string) (cols : list string) (v : cell)
  (cells : list cell) : list cell :=
  if has_column label cols then assign_where label cols v cells
  else cells ++ [v].

Definition set_label (label : string) (cols : list string) : list string :=
  if has_column label cols then cols else cols ++ [label].

(** [df[label] = v] for a scalar [v], which pandas broadcasts to every row. *)
Definition setitem_scalar (df : DataFrame) (label : string) (v : cell)
  : DataFrame :=
  {| index_name := index_name df;
     columns := set_label label (columns df);
     rows := map (fun r => (fst r, set_cell label (columns df) v (snd r)))
                 (rows df) |}.

(** [df[label] = s] for a series [s] taken from the same frame. *)
Definition setitem (df : DataFrame) (label : string) (s : Series)
  : DataFrame :=
  {| index_name := index_name df;
     columns := set_label label (columns df);
     rows := map (fun rv =>
                    (fst (fst rv),
                     set_cell label (columns df) (snd rv) (snd (fst rv))))
                 (combine (rows df) s) |}.

Definition column_values (i : nat) (df : DataFrame) : Series :=
  map (fun r => nth i (snd r) NaN) (rows df).

(** [df[label]] *)
Definition getitem (df : DataFrame) (label : string) : result Series :=
  match position label (columns df) with
  | Some i => Ok (column_values i df)
  | None => Raise (KeyError label)
  end.

(** [df.label], attribute access to a column *)
Definition getattr (df : DataFrame) (label : string) : result Series :=
  match position label (columns df) with
  | Some i => Ok (column_values i df)
  | None => Raise (AttributeError label)
  end.

(** [df.columns = labels]: pandas refuses a list of another length with a
    [ValueError] ("Length mismatch") and leaves the frame as it was. *)
Definition set_columns (df : DataFrame) (labels : list string)
  : result DataFrame :=
  if length labels =? length (columns df) then
    Ok {| index_name := index_name df; columns := labels; rows := rows df |}
  else Raise ValueError.

Fixpoint drop_where (label : string) (cols : list string) (cells : list cell)
  : list cell :=
  match cols, cells with
  | c :: cols', x :: cells' =>
      if String.eqb c label then drop_where label cols' cells'
      else x :: drop_where label cols' cells'
  | _, _ => cells
  end.

(** [df.drop(label, 1)]: the columns carrying the label are removed; a label
    the frame does not have is a [KeyError]. *)
Definition drop (df : DataFrame) (label : string) : result DataFrame :=
  if has_column label (columns df) then
    Ok {| index_name := index_name df;
          columns := filter (fun c => negb (String.eqb c label)) (columns df);
          rows := map (fun r => (fst r, drop_where label (columns df) (snd r)))
                      (rows df) |}
  else Raise (KeyError label).

(** The labels [0, 1, ...] of a fresh [RangeIndex]. *)
Definition RangeIndex (n : nat) : list cell :=
  map (fun i => Num (inject_Z (Z.of_nat i))) (seq 0 n).

Definition with_RangeIndex (values : list (list cell)) : list Row :=
  combine (RangeIndex (length values)) values.

(** [df.reset_index()]: the index becomes the first column, labelled by the
    index name, or by ["index"] (["level_0"] when that label is taken) for an
    unnamed index; inserting a label the frame already has is a
    [ValueError]. *)
Definition reset_index (df : DataFrame) : result DataFrame :=
  let label :=
    match index_name df with
    | Some n => n
    | None => if has_column "index" (columns df) then "level_0" else "index"
    end in
  if has_column label (columns df) then Raise ValueError
  else Ok {| index_name := None;
             columns := label :: columns df;
             rows := with_RangeIndex
                       (map (fun r => fst r :: snd r) (rows df)) |}.

(** [df.reset_index(drop=True)] *)
Definition reset_index_drop (df : DataFrame) : DataFrame :=
  {| index_name := None;
     columns := columns df;
     rows := with_RangeIndex (map snd (rows df)) |}.

(** [df.dropna()]: the rows with no missing value in any column. *)
Definition dropna (df : DataFrame) : DataFrame :=
  {| index_name := index_name df;
     columns := columns df;
     rows := filter (fun r => forallb notna (snd r)) (rows df) |}.

(** *** [DataFrame.append]

    [a.append(b)] is [pd.concat([a, b])].  A frame with neither rows nor
    columns is left out of the concatenation; frames with the same column
    labels are stacked; otherwise the columns are the labels of [a] followed
    by the new ones of [b] (pandas 1.x, [sort=False]), the cells a frame lacks
    are missing, and labels repeated within a frame cannot be re-indexed. *)

Definition is_empty (df : DataFrame) : bool :=
  (length (rows df) + length (columns df) =? 0)%nat.

Definition concat_index_name (a b : DataFrame) : option string :=
  match index_name a, index_name b with
  | Some x, Some y => if String.eqb x y then Some x else None
  | _, _ => None
  end.

Definition labels_eqb (a b : list string) : bool :=
  if list_eq_dec string_dec a b then true else false.

Fixpoint unique_labels (cols : list string) : bool :=
  match cols with
  | [] => true
  | c :: cols' => negb (has_column c cols') && unique_labels cols'
  end.

Definition reindex (old new : list string) (r : Row) : Row :=
  (fst r,
   map (fun c => match position c old with
                 | Some i => nth i (snd r) NaN
                 | None => NaN
                 end) new).

Definition append (a b : DataFrame) : result DataFrame :=
  if is_empty a then Ok b
  else if is_empty b then Ok a
  else if labels_eqb (columns a) (columns b) then
    Ok {| index_name := concat_index_name a b;
          columns := columns a;
          rows := rows a ++ rows b |}
  else if unique_labels (columns a) && unique_labels (columns b) then
    let new := filter (fun c => negb (has_column c (columns a))) (columns b) in
    let cols := columns a ++ new in
    Ok {| index_name := concat_index_name a b;
          columns := cols;
          rows := map (reindex (columns a) cols) (rows a)
                  ++ map (reindex (columns b) cols) (rows b) |}
  else Raise ValueError.

(** *** [Series.apply] and [strftime] *)

Fixpoint apply (f : cell -> result cell) (s : Series) : result Series :=
  match s with
  | [] => Ok []
  | x :: s' =>
      match f x with
      | Raise e => Raise e
      | Ok y =>
          match apply f s' with
          | Raise e => Raise e
          | Ok ys => Ok (y :: ys)
          end
      end
  end.

Definition decimal (n : N) : string :=
  NilEmpty.string_of_uint (N.to_uint n).

Definition digit (d : N) : ascii := ascii_of_N (48 + d).

(** The last [width] decimal digits of a number. *)
Fixpoint fixed (width : nat) (n : N) : string :=
  match width with
  | O => EmptyString
  | S width' =>
      (fixed width' (n / 10) ++ String (digit (n mod 10)) EmptyString)%string
  end.

(** A number in decimal, zero-padded on the left to [width] digits, as
    [%Y], [%m] and [%d] print it: the number has these [width] digits when it
    fits, and all the digits it needs when it does not. *)
Definition zfill (width : nat) (n : N) : string :=
  if (n <? 10 ^ N.of_nat width)%N then fixed width n else decimal n.

(** [t.strftime('%Y-%m-%d')] *)
Definition strftime_Ymd (t : Timestamp) : string :=
  (zfill 4 (year t) ++ "-" ++ zfill 2 (month t) ++ "-"
   ++ zfill 2 (day t))%string.

(** [lambda x: x.strftime('%Y-%m-%d')]: only a timestamp has the method;
    [NaT] has it and refuses. *)
Definition strftime (x : cell) : result cell :=
  match x with
  | Ts t => Ok (Str (strftime_Ymd t))
  | NaT => Raise ValueError
  | _ => Raise (AttributeError "strftime")
  end.

(** *** [value_counts], [mean], [isin] *)

Fixpoint count_into (v : cell) (acc : list (cell * nat)) : list (cell * nat) :=
  match acc with
  | [] => [(v, 1)]
  | (k, n) :: acc' =>
      if cell_eqb k v then (k, S n) :: acc'
      else (k, n) :: count_into v acc'
  end.

Definition tally (s : Series) : list (cell * nat) :=
  fold_left (fun acc v => if isna v then acc else count_into v acc) s [].

Fixpoint insert_desc (e : cell * nat) (l : list (cell * nat))
  : list (cell * nat) :=
  match l with
  | [] => [e]
  | h :: t =>
      if snd h <=? snd e then e :: h :: t else h :: insert_desc e t
  end.

Definition sort_desc (l : list (cell * nat)) : list (cell * nat) :=
  fold_right insert_desc [] l.

(** [s.value_counts()]: how often each value that is not missing occurs, the
    most frequent first.  (pandas leaves the order among equal counts open;
    here values of equal count stay in order of first appearance.) *)
Definition value_counts (s : Series) : list (cell * nat) :=
  sort_desc (tally s).

(** [counts.mean()].  pandas computes the mean of an integer column in
    float64, and the mean of no values is NaN ([None] here).  The quotient is
    kept exact: comparing an integer count with the correctly rounded quotient
    of two integers below 2^53 gives the same answer as comparing it with the
    exact quotient, and no frame in memory has 2^53 rows. *)
Definition mean (counts : list nat) : option Q :=
  match counts with
  | [] => None
  | _ => Some (Z.of_nat (list_sum counts) # Pos.of_nat (length counts))%Q
  end.

(** [count >= mean]; a comparison with NaN is false. *)
Definition ge_mean (count : nat) (m : option Q) : bool :=
  match m with
  | Some q => Qle_bool q (inject_Z (Z.of_nat count))
  | None => false
  end.

(** [s.isin(values)] *)
Definition isin (s : Series) (values : list cell) : list bool :=
  map (fun c => existsb (cell_eqb c) values) s.

(** [names[mask]] and [df[mask]]: the entries whose mask bit is set. *)
Definition mask_select {A : Type} (l : list A) (mask : list bool) : list A :=
  map fst (filter snd (combine l mask)).

Definition select_rows (df : DataFrame) (mask : list bool) : DataFrame :=
  {| index_name := index_name df;
     columns := columns df;
     rows := mask_select (rows df) mask |}.

End pd.

Import pd.

(** ** Statements of [fetch_data]: local variables, output, exceptions *)

(** What the module prints. *)
Inductive Printed : Type :=
| generated_an_exception (data : DataFrame) (exc : PyException)
    (* '%r generated an exception: %s' % (data, exc) *)
| features_not_supported
    (* "the features are not supported currently" *)
| Shape_of_DataFrame (shape : nat * nat).
    (* "Shape of DataFrame: ", data_df.shape *)

(** The local variables of [fetch_data] ([None]: not bound yet) and the lines
    printed so far. *)
Record Locals : Type := {
  data_df : option DataFrame;
  data : option DataFrame;
  stdout : list Printed
}.

(** A statement runs from a state to a value or a raised exception, and to the
    state it leaves behind: an exception does not undo assignments. *)
Definition Py (A : Type) : Type := Locals -> result A * Locals.

Definition ret {A : Type} (a : A) : Py A := fun s => (Ok a, s).

Definition bind {A B : Type} (c : Py A) (k : A -> Py B) : Py B :=
  fun s =>
    match c s with
    | (Ok a, s') => k a s'
    | (Raise e, s') => (Raise e, s')
    end.

Declare Scope py_scope.
Delimit Scope py_scope with py.
Notation "x <- c ;; k" := (bind c (fun x => k))
  (at level 61, c at next level, right associativity) : py_scope.
Notation "c ;; k" := (bind c (fun _ => k))
  (at level 61, right associativity) : py_scope.

(** The value of a pandas call, or the exception it raises. *)
Definition call {A : Type} (r : result A) : Py A := fun s => (r, s).

Definition print (line : Printed) : Py unit :=
  fun s => (Ok tt, {| data_df := data_df s; data := data s;
                      stdout := stdout s ++ [line] |}).

Definition assign_data_df (v : DataFrame) : Py unit :=
  fun s => (Ok tt, {| data_df := Some v; data := data s;
                      stdout := stdout s |}).

Definition assign_data (v : DataFrame) : Py unit :=
  fun s => (Ok tt, {| data_df := data_df s; data := Some v;
                      stdout := stdout s |}).

(** Reading a local that is not bound raises [UnboundLocalError]. *)
Definition read_data_df : Py DataFrame :=
  fun s => match data_df s with
           | Some v => (Ok v, s)
           | None => (Raise (UnboundLocalError "data_df"), s)
           end.

Definition read_data : Py DataFrame :=
  fun s => match data s with
           | Some v => (Ok v, s)
           | None => (Raise (UnboundLocalError "data"), s)
           end.

(** [try: body / except <class> as exc: handler exc / else: orelse].  The
    handler sees the exceptions of [body] that the class matches; exceptions of
    the handler and of the [else] branch are not caught. *)
Definition try_except_else (body : Py unit) (class : PyException -> bool)
  (handler : PyException -> Py unit) (orelse : Py unit) : Py unit :=
  fun s =>
    match body s with
    | (Ok _, s') => orelse s'
    | (Raise e, s') => if class e then handler e s' else (Raise e, s')
    end.

Definition try_except (body : Py unit) (class : PyException -> bool)
  (handler : PyException -> Py unit) : Py unit :=
  try_except_else body class handler (ret tt).

(** [for x in xs: body x] *)
Fixpoint for_each {A : Type} (xs : list A) (body : A -> Py unit) : Py unit :=
  match xs with
  | [] => ret tt
  | x :: xs' => (body x ;; for_each xs' body)%py
  end.

(** ** The module *)

Record YahooDownloader : Type := {
  start_date : string;
  end_date : string;
  ticker_list : list string
}.

(** A future of the executor: the ticker it is filed under in
    [future_to_url], and what [future.result()] gives once the task is done,
    the task's return value or the exception it raised. *)
Record Future : Type := {
  url : string;
  future_result : result DataFrame
}.

(** Lines 60-65, the body of the loop over the completed futures. *)
Definition collect (future : Future) : Py unit :=
  try_except_else
    (r <- call (future_result future) ;; assign_data r)%py
    is_Exception
    (fun exc =>
       (d <- read_data ;; print (generated_an_exception d exc))%py)
    (d <- read_data ;;
     df <- read_data_df ;;
     df' <- call (append df d) ;;
     assign_data_df df')%py.

(** Lines 69-77. *)
Definition rename_columns : Py unit :=
  try_except
    (df <- read_data_df ;;
     df' <- call (set_columns df
               ["date"; "open"; "high"; "low"; "close"; "adjcp"; "volume";
                "tic"]) ;;
     assign_data_df df' ;;
     df <- read_data_df ;;
     adjcp <- call (getitem df "adjcp") ;;
     assign_data_df (setitem df "close" adjcp) ;;
     df <- read_data_df ;;
     df' <- call (drop df "adjcp") ;;
     assign_data_df df')%py
    is_NotImplementedError
    (fun _ => print features_not_supported).

Section Vendor.

(** [yf.download(tic, start=..., end=...)]: the vendor's answer for a ticker
    and a date range, a frame or an exception. *)
Variable yf_download : string -> string -> string -> result DataFrame.

(** [concurrent.futures.as_completed(future_to_url)]: the futures in the order
    in which their tasks finish.  Which order that is lies with the executor;
    all the function is known to do is to yield every future once. *)
Variable as_completed : list Future -> list Future.

(** Lines 53-56. *)
Definition yf_downloader (self : YahooDownloader) (tic : string)
  : result DataFrame :=
  match yf_download tic (start_date self) (end_date self) with
  | Raise e => Raise e
  | Ok df => Ok (setitem_scalar df "tic" (Str tic))
  end.

(** Line 58: one task per entry of [ticker_list], in that order. *)
Definition future_to_url (self : YahooDownloader) : list Future :=
  map (fun tic => {| url := tic; future_result := yf_downloader self tic |})
      (ticker_list self).

(** [fetch_data], lines 52-87. *)
Definition fetch_data (self : YahooDownloader) : Py DataFrame :=
  (assign_data_df new_DataFrame ;;
   for_each (as_completed (future_to_url self)) collect ;;
   df <- read_data_df ;;
   df' <- call (reset_index df) ;;
   assign_data_df df' ;;
   rename_columns ;;
   df <- read_data_df ;;
   date <- call (getattr df "date") ;;
   date' <- call (apply strftime date) ;;
   assign_data_df (setitem df "date" date') ;;
   df <- read_data_df ;;
   assign_data_df (dropna df) ;;
   df <- read_data_df ;;
   assign_data_df (reset_index_drop df) ;;
   df <- read_data_df ;;
   print (Shape_of_DataFrame (shape df)) ;;
   read_data_df)%py.

End Vendor.

(** Every future is yielded, once. *)
Definition yields_each_once (as_completed : list Future -> list Future)
  : Prop :=
  forall futures, Permutation (as_completed futures) futures.

(** Two orders of completion: the order of submission, and its reverse. *)
Definition in_order_of_submission (futures : list Future) : list Future :=
  futures.

Definition last_submitted_first (futures : list Future) : list Future :=
  rev futures.

(** The state in which a call of [fetch_data] starts. *)
Definition on_entry : Locals :=
  {| data_df := None; data := None; stdout := [] |}.

(** ** [select_equal_rows_stock] *)

Definition and_then {A B : Type} (r : result A) (k : A -> result B)
  : result B :=
  match r with
  | Ok a => k a
  | Raise e => Raise e
  end.

Notation "'let!' x := r 'in' k" := (and_then r (fun x => k))
  (at level 10, x name, k at level 200).

(** Lines 90-99.  [df_check] is the two-column frame [tic], [counts] made of
    [value_counts()], kept here as the list of its rows. *)
Definition select_equal_rows_stock (df : DataFrame) : result DataFrame :=
  let! tic := getattr df "tic" in
  let df_check := value_counts tic in
  let mean_df := mean (map snd df_check) in
  let! tic := getattr df "tic" in
  let equal_list :=
    map (fun c => ge_mean c mean_df) (map snd (value_counts tic)) in
  let! tic := getattr df "tic" in
  let names := map fst (value_counts tic) in
  let select_stocks_list := mask_select names equal_list in
  let! tic := getattr df "tic" in
  Ok (select_rows df (isin tic select_stocks_list)).

(** ** The vocabulary of the properties *)

(** The cell of a row under a column label. *)
Definition field (df : DataFrame) (label : string) (r : Row) : cell :=
  match position label (columns df) with
  | Some i => nth i (snd r) NaN
  | None => NaN
  end.

(** The [tic] column, one entry per row. *)
Definition tickers (df : DataFrame) : Series :=
  map (field df "tic") (rows df).

(** The number of rows of a ticker. *)
Definition row_count (df : DataFrame) (t : cell) : nat :=
  count_occ cell_eq_dec (tickers df) t.

(** The tickers of a frame, each once; a missing entry names no ticker. *)
Definition distinct_tickers (df : DataFrame) : list cell :=
  nodup cell_eq_dec (filter notna (tickers df)).

(** The arithmetic mean of the row counts of the distinct tickers. *)
Definition mean_row_count (df : DataFrame) : option Q :=
  mean (map (row_count df) (distinct_tickers df)).

(** A row's ticker has at least the mean number of rows. *)
Definition meets_mean (df : DataFrame) (t : cell) : bool :=
  notna t && ge_mean (row_count df t) (mean_row_count df).

(** ** Frames and vendors used as examples *)

(** A table in the output schema with one row per listed ticker entry. *)
Definition quotes_of (tics : list cell) : DataFrame :=
  {| index_name := None;
     columns := ["date"; "open"; "high"; "low"; "close"; "volume"; "tic"];
     rows := with_RangeIndex
               (map (fun t => [Str "2020-01-02"; Num 1; Num 2; Num 1; Num 2;
                               Num 100; t]) tics) |}.

(** Ten rows of AAA and four of BBB, interleaved. *)
Definition ten_and_four : DataFrame :=
  quotes_of [Str "AAA"; Str "BBB"; Str "AAA"; Str "AAA"; Str "BBB";
             Str "AAA"; Str "AAA"; Str "BBB"; Str "AAA"; Str "AAA";
             Str "BBB"; Str "AAA"; Str "AAA"; Str "AAA"].

(** Three rows of AAA, three of BBB and one of CCC. *)
Definition three_three_one : DataFrame :=
  quotes_of [Str "AAA"; Str "BBB"; Str "CCC"; Str "AAA"; Str "BBB";
             Str "AAA"; Str "BBB"].

(** One row whose [tic] is missing. *)
Definition unlabelled_row : DataFrame := quotes_of [NaN].

Definition Yahoo_columns : list string :=
  ["Open"; "High"; "Low"; "Close"; "Adj Close"; "Volume"].

Definition on_day (y m d : N) : cell :=
  Ts {| year := y; month := m; day := d |}.

(** Three days of AAA as the vendor lays them out; the second has no high. *)
Definition AAA_quotes : DataFrame :=
  {| index_name := Some "Date";
     columns := Yahoo_columns;
     rows :=
       [(on_day 2020 1 2,
         [Num 10; Num 12; Num 9; Num 11; Num (21 # 2); Num 1000]);
        (on_day 2020 1 3,
         [Num 11; NaN; Num 10; Num 12; Num (23 # 2); Num 1500]);
        (on_day 2020 1 6,
         [Num 12; Num 14; Num 11; Num 13; Num (25 # 2); Num 2000])] |}.

(** A vendor that has AAA and fails on every other ticker. *)
Definition only_AAA (tic start_ end_ : string) : result DataFrame :=
  if String.eqb tic "AAA" then Ok AAA_quotes
  else Raise (OtherException "No data found, symbol may be delisted").

Definition AAA_and_BBB : YahooDownloader :=
  {| start_date := "2020-01-01";
     end_date := "2020-01-07";
     ticker_list := ["AAA"; "BBB"] |}.

Definition just_AAA : YahooDownloader :=
  {| start_date := "2020-01-01";
     end_date := "2020-01-07";
     ticker_list := ["AAA"] |}.

(** A vendor whose frames have seven columns: a symbol column of its own,
    labelled [tic], ahead of Yahoo's six. *)
Definition with_its_own_tic (tic start_ end_ : string) : result DataFrame :=
  Ok {| index_name := Some "Date";
        columns := "tic" :: Yahoo_columns;
        rows :=
          [(on_day 2020 1 2,
            [Str "AAA.US"; Num 10; Num 12; Num 9; Num 11; Num (21 # 2);
             Num 1000])] |}.

(** A vendor whose one row for a day has an adjusted close and no raw
    close. *)
Definition without_raw_close (tic start_ end_ : string) : result DataFrame :=
  Ok {| index_name := Some "Date";
        columns := Yahoo_columns;
        rows :=
          [(on_day 2020 1 2,
            [Num 10; Num 12; Num 9; NaN; Num (21 # 2); Num 1000])] |}.

(** ** The steps after the loop, row by row *)

Definition renamed_labels : list string :=
  ["date"; "open"; "high"; "low"; "close"; "adjcp"; "volume"; "tic"].

Definition output_labels : list string :=
  ["date"; "open"; "high"; "low"; "close"; "volume"; "tic"].

(** Lines 73 and 75 on the cells of one row. *)
Definition use_adjcp (cells : list cell) : list cell :=
  drop_where "adjcp" renamed_labels
    (set_cell "close" renamed_labels (nth 5 cells NaN) cells).

(** Lines 71-75 on a frame of eight columns. *)
Definition renamed (df : DataFrame) : DataFrame :=
  {| index_name := index_name df;
     columns := output_labels;
     rows := map (fun r => (fst r, use_adjcp (snd r))) (rows df) |}.

(** What [strftime] makes of a timestamp. *)
Definition date_string (c : cell) : cell :=
  match c with
  | Ts t => Str (strftime_Ymd t)
  | _ => c
  end.

Definition is_timestamp (c : cell) : Prop := exists t, c = Ts t.

(** Line 80 on the cells of one row. *)
Definition format_date (cells : list cell) : list cell :=
  set_cell "date" output_labels (date_string (nth 0 cells NaN)) cells.

(** Lines 68-80 on one row of the accumulated frame: the index label becomes
    the first cell, the adjusted close replaces the close, the date is
    formatted. *)
Definition normalized (r : Row) : list cell :=
  format_date (use_adjcp (fst r :: snd r)).

(** ** Counting and accumulating, for the proofs *)

(** The count a tally holds for a value. *)
Fixpoint lookup (k : cell) (acc : list (cell * nat)) : nat :=
  match acc with
  | [] => 0
  | (k', n) :: acc' => if cell_eqb k' k then n else lookup k acc'
  end.

(** One step of [tally]. *)
Definition tally_step (acc : list (cell * nat)) (v : cell)
  : list (cell * nat) :=
  if isna v then acc else count_into v acc.

(** A row of the accumulated frame: a row of the vendor's for a ticker of the
    list, with the ticker as its last cell. *)
Definition quoted
  (yf_download : string -> string -> string -> result DataFrame)
  (self : YahooDownloader) (r : Row) : Prop :=
  exists tic df vr,
    In tic (ticker_list self)
    /\ yf_download tic (start_date self) (end_date self) = Ok df
    /\ In vr (rows df)
    /\ r = (fst vr, snd vr ++ [Str tic]).

(** The accumulated frame during the loop: still [pd.DataFrame()], or the
    vendor's columns and [tic] over rows of the vendor's. *)
Definition accumulated
  (yf_download : string -> string -> string -> result DataFrame)
  (self : YahooDownloader) (vendor_columns : list string) (d : DataFrame)
  : Prop :=
  d = new_DataFrame
  \/ (columns d = vendor_columns ++ ["tic"]
      /\ Forall (quoted yf_download self) (rows d)).

(** ** The date pattern *)

Definition is_digit (c : ascii) : bool :=
  ((48 <=? N_of_ascii c) && (N_of_ascii c <=? 57))%N.

Definition is_hyphen (c : ascii) : bool := (N_of_ascii c =? 45)%N.

(** The pattern [YYYY-MM-DD]. *)
Definition matches_YYYY_MM_DD (s : string) : bool :=
  match list_ascii_of_string s with
  | [y1; y2; y3; y4; h1; m1; m2; h2; d1; d2] =>
      is_digit y1 && is_digit y2 && is_digit y3 && is_digit y4
      && is_hyphen h1 && is_digit m1 && is_digit m2
      && is_hyphen h2 && is_digit d1 && is_digit d2
  | _ => false
  end.

(** The days a [pandas.Timestamp] can be: its years run from 1677 to 2262. *)
Definition calendar_day (t : Timestamp) : Prop :=
  (1677 <= year t <= 2262 /\ 1 <= month t <= 12 /\ 1 <= day t <= 31)%N.

(** ** The loop in terms of the futures *)

(** The rows of the frames the completed futures returned, future after
    future. *)
Definition fetched_rows (completed : list Future) : list Row :=
  flat_map (fun f => match future_result f with
                     | Ok r => rows r
                     | Raise _ => []
                     end) completed.

(** The exceptions the completed futures raised, in the order of completion. *)
Definition raised (completed : list Future) : list PyException :=
  flat_map (fun f => match future_result f with
                     | Ok _ => []
                     | Raise exc => [exc]
                     end) completed.

(** Every row has a cell for every column. *)
Definition rectangular (df : DataFrame) : Prop :=
  Forall (fun r => length (snd r) = length (columns df)) (rows df).

(** ** More examples *)

Definition BBB_and_CCC : YahooDownloader :=
  {| start_date := "2020-01-01";
     end_date := "2020-01-07";
     ticker_list := ["BBB"; "CCC"] |}.

Definition AAA_BBB_and_CCC : YahooDownloader :=
  {| start_date := "2020-01-01";
     end_date := "2020-01-07";
     ticker_list := ["AAA"; "BBB"; "CCC"] |}.

(** A vendor whose frames have five columns: prices already adjusted, and no
    adjusted close beside them. *)
Definition without_adjusted_close (tic start_ end_ : string)
  : result DataFrame :=
  Ok {| index_name := Some "Date";
        columns := ["Open"; "High"; "Low"; "Close"; "Volume"];
        rows := [(on_day 2020 1 2, [Num 10; Num 12; Num 9; Num 11; Num 1000])] |}.

(** Two rows of AAA and two of BBB after one of none. *)
Definition two_two_and_unlabelled : DataFrame :=
  quotes_of [NaN; Str "AAA"; Str "BBB"; Str "AAA"; Str "BBB"].

(** * Properties *)

(** ** Lists *)

Lemma mask_select_map {A B : Type} (f : A -> B) (g : A -> bool) (l : list A) :
  mask_select (map f l) (map g l) = map f (filter g l).
Proof.
  unfold mask_select.
  induction l as [| x l IH]; simpl; [reflexivity |].
  destruct (g x); simpl; now rewrite IH.
Qed.

Lemma mask_select_filter {A : Type} (g : A -> bool) (l : list A) :
  mask_select l (map g l) = filter g l.
Proof.
  rewrite <- (map_id l) at 1.
  rewrite mask_select_map. apply map_id.
Qed.

Lemma cell_eqb_eq (a b : cell) : cell_eqb a b = true <-> a = b.
Proof.
  unfold cell_eqb. destruct (cell_eq_dec a b); split; congruence.
Qed.

Lemma position_In (label : string) (cols : list string) :
  In label cols -> exists i, position label cols = Some i.
Proof.
  induction cols as [| c cols IH]; simpl; [tauto |].
  intros [-> | H].
  - rewrite String.eqb_refl. now exists 0.
  - destruct (String.eqb c label); [now exists 0 |].
    destruct (IH H) as [i ->]. now exists (S i).
Qed.

(** ** [value_counts] *)

Lemma lookup_count_into (k v : cell) (acc : list (cell * nat)) :
  lookup k (count_into v acc)
  = lookup k acc + (if cell_eqb v k then 1 else 0).
Proof.
  induction acc as [| [k' n] acc IH]; simpl.
  - destruct (cell_eqb v k); reflexivity.
  - destruct (cell_eqb k' v) eqn:E; simpl.
    + apply cell_eqb_eq in E. subst k'.
      destruct (cell_eqb v k); lia.
    + destruct (cell_eqb k' k) eqn:E'; [| exact IH].
      apply cell_eqb_eq in E'. subst k'.
      destruct (cell_eqb v k) eqn:E2; [| lia].
      apply cell_eqb_eq in E2. subst v.
      rewrite (proj2 (cell_eqb_eq k k) eq_refl) in E. discriminate.
Qed.

Lemma keys_count_into (v : cell) (acc : list (cell * nat)) :
  map fst (count_into v acc)
  = if in_dec cell_eq_dec v (map fst acc) then map fst acc
    else map fst acc ++ [v].
Proof.
  induction acc as [| [k n] acc IH]; simpl; [reflexivity |].
  destruct (cell_eqb k v) eqn:E; simpl.
  - apply cell_eqb_eq in E. subst k.
    destruct (cell_eq_dec v v); [reflexivity | congruence].
  - rewrite IH.
    destruct (cell_eq_dec k v) as [Ekv | Hkv].
    + rewrite (proj2 (cell_eqb_eq k v) Ekv) in E. discriminate.
    + destruct (in_dec cell_eq_dec v (map fst acc)); reflexivity.
Qed.

Lemma NoDup_snoc {A : Type} (l : list A) (x : A) :
  NoDup l -> ~ In x l -> NoDup (l ++ [x]).
Proof.
  intros Hl Hx. apply NoDup_rev in Hl.
  rewrite <- (rev_involutive (l ++ [x])). apply NoDup_rev.
  rewrite rev_app_distr. simpl. constructor; [| exact Hl].
  now rewrite <- in_rev.
Qed.

Lemma tally_fold_keys (s : Series) (acc : list (cell * nat)) :
  NoDup (map fst acc) ->
  NoDup (map fst (fold_left tally_step s acc)).
Proof.
  revert acc. induction s as [| v s IH]; intros acc H; simpl; [exact H |].
  apply IH. unfold tally_step. destruct (isna v); [exact H |].
  rewrite keys_count_into.
  destruct (in_dec cell_eq_dec v (map fst acc)); [exact H |].
  now apply NoDup_snoc.
Qed.

Lemma tally_fold_lookup (k : cell) (s : Series) (acc : list (cell * nat)) :
  lookup k (fold_left tally_step s acc)
  = lookup k acc + count_occ cell_eq_dec (filter notna s) k.
Proof.
  revert acc. induction s as [| v s IH]; intros acc; simpl; [lia |].
  rewrite IH. unfold tally_step, notna.
  destruct (isna v); simpl; [reflexivity |].
  rewrite lookup_count_into. unfold cell_eqb.
  destruct (cell_eq_dec v k); lia.
Qed.

Lemma tally_fold_positive (s : Series) (acc : list (cell * nat)) :
  Forall (fun p => 0 < snd p) acc ->
  Forall (fun p => 0 < snd p) (fold_left tally_step s acc).
Proof.
  revert acc. induction s as [| v s IH]; intros acc H; simpl; [exact H |].
  apply IH. unfold tally_step. destruct (isna v); [exact H |].
  clear IH. induction acc as [| [k n] acc IHacc]; simpl.
  - repeat constructor.
  - inversion H; subst. destruct (cell_eqb k v).
    + constructor; [simpl; lia | assumption].
    + constructor; [assumption | now apply IHacc].
Qed.

Lemma lookup_In (k : cell) (n : nat) (acc : list (cell * nat)) :
  NoDup (map fst acc) -> In (k, n) acc -> lookup k acc = n.
Proof.
  induction acc as [| [k' n'] acc IH]; simpl; [tauto |].
  intros Hnd [Heq | Hin].
  - inversion Heq; subst.
    now rewrite (proj2 (cell_eqb_eq k k) eq_refl).
  - inversion Hnd as [| ? ? Hnot Hnd']; subst.
    destruct (cell_eqb k' k) eqn:E; [| now apply IH].
    apply cell_eqb_eq in E. subst k'.
    exfalso. apply Hnot. now apply (in_map fst) in Hin.
Qed.

Lemma lookup_positive_In (k : cell) (acc : list (cell * nat)) :
  0 < lookup k acc -> In k (map fst acc).
Proof.
  induction acc as [| [k' n'] acc IH]; simpl; [lia |].
  destruct (cell_eqb k' k) eqn:E.
  - apply cell_eqb_eq in E. now left.
  - intros H. right. now apply IH.
Qed.

Lemma tally_eq (s : Series) : tally s = fold_left tally_step s [].
Proof. reflexivity. Qed.

Lemma tally_NoDup (s : Series) : NoDup (map fst (tally s)).
Proof. rewrite tally_eq. apply tally_fold_keys. constructor. Qed.

Lemma tally_In (s : Series) (k : cell) (n : nat) :
  In (k, n) (tally s) ->
  n = count_occ cell_eq_dec (filter notna s) k /\ 0 < n.
Proof.
  intros H. split.
  - rewrite <- (lookup_In k n (tally s) (tally_NoDup s) H).
    rewrite tally_eq, tally_fold_lookup. reflexivity.
  - pose proof (tally_fold_positive s [] (Forall_nil _)) as P.
    rewrite Forall_forall in P. exact (P _ H).
Qed.

Lemma tally_keys (s : Series) (k : cell) :
  In k (map fst (tally s)) <-> In k (filter notna s).
Proof.
  split.
  - intros H. apply in_map_iff in H. destruct H as [[k' n] [E H]].
    simpl in E. subst k'. apply tally_In in H. destruct H as [-> Hpos].
    now apply (count_occ_In cell_eq_dec).
  - intros H. apply lookup_positive_In.
    rewrite tally_eq, tally_fold_lookup. simpl.
    now apply (count_occ_In cell_eq_dec) in H.
Qed.

Lemma insert_desc_Permutation (e : cell * nat) (l : list (cell * nat)) :
  Permutation (insert_desc e l) (e :: l).
Proof.
  induction l as [| h t IH]; simpl; [reflexivity |].
  destruct (snd h <=? snd e); [reflexivity |].
  rewrite IH. apply perm_swap.
Qed.

Lemma sort_desc_Permutation (l : list (cell * nat)) :
  Permutation (sort_desc l) l.
Proof.
  induction l as [| e l IH]; simpl; [constructor |].
  rewrite insert_desc_Permutation. now constructor.
Qed.

Lemma value_counts_Permutation (s : Series) :
  Permutation (value_counts s) (tally s).
Proof. apply sort_desc_Permutation. Qed.

(** ** [mean] *)

Lemma mean_Permutation (l l' : list nat) :
  Permutation l l' -> mean l = mean l'.
Proof.
  intros H. unfold mean.
  rewrite (Permutation_length H), (Permutation_list_sum H).
  destruct l as [| x l]; destruct l' as [| x' l']; try reflexivity.
  - apply Permutation_nil in H. discriminate.
  - apply Permutation_sym, Permutation_nil in H. discriminate.
Qed.

(** A count reaches the mean of a list of counts exactly when the list is not
    empty and its sum is at most the count times its length. *)
Lemma ge_mean_iff (n : nat) (l : list nat) :
  ge_mean n (mean l) = true <-> l <> [] /\ list_sum l <= n * length l.
Proof.
  destruct l as [| x l].
  - simpl. split; [discriminate | intros [H _]; congruence].
  - unfold mean, ge_mean. rewrite Qle_bool_iff. unfold Qle.
    cbn [Qnum Qden inject_Z].
    replace (Z.pos (Pos.of_nat (length (x :: l))))
      with (Z.of_nat (length (x :: l))).
    + rewrite Z.mul_1_r, <- Nat2Z.inj_mul, <- Nat2Z.inj_le.
      split; [intros H; split; [discriminate | exact H] | now intros [_ H]].
    + cbn [length]. rewrite <- Pos.of_nat_succ. symmetry.
      rewrite Zpos_P_of_succ_nat. lia.
Qed.

Lemma count_occ_filter_notna (s : Series) (k : cell) :
  notna k = true ->
  count_occ cell_eq_dec (filter notna s) k = count_occ cell_eq_dec s k.
Proof.
  intros Hk. induction s as [| v s IH]; simpl; [reflexivity |].
  destruct (notna v) eqn:Hv; simpl.
  - destruct (cell_eq_dec v k); now rewrite IH.
  - destruct (cell_eq_dec v k) as [E | _]; [congruence | exact IH].
Qed.

Lemma value_counts_mean (s : Series) :
  mean (map snd (value_counts s))
  = mean (map (count_occ cell_eq_dec s) (nodup cell_eq_dec (filter notna s))).
Proof.
  transitivity (mean (map snd (tally s))).
  { apply mean_Permutation, Permutation_map, value_counts_Permutation. }
  replace (map snd (tally s))
    with (map (count_occ cell_eq_dec (filter notna s)) (map fst (tally s))).
  - transitivity
      (mean (map (count_occ cell_eq_dec (filter notna s))
                 (nodup cell_eq_dec (filter notna s)))).
    + apply mean_Permutation, Permutation_map, NoDup_Permutation.
      * apply tally_NoDup.
      * apply NoDup_nodup.
      * intros k. rewrite tally_keys, nodup_In. reflexivity.
    + f_equal. apply map_ext_in. intros k Hk.
      apply nodup_In, filter_In in Hk.
      now apply count_occ_filter_notna.
  - rewrite map_map. apply map_ext_in. intros [k n] Hin. simpl.
    symmetry. now apply tally_In.
Qed.

(** Line 98: a row is kept when its ticker is one of the selected names. *)
Lemma isin_selected (s : Series) (m : option Q) (c : cell) :
  In c s ->
  existsb (cell_eqb c)
    (map fst (filter (fun p => ge_mean (snd p) m) (value_counts s)))
  = notna c && ge_mean (count_occ cell_eq_dec s c) m.
Proof.
  intros Hc. apply eq_true_iff_eq.
  rewrite existsb_exists, andb_true_iff. split.
  - intros [x [Hx E]]. apply cell_eqb_eq in E. subst x.
    apply in_map_iff in Hx. destruct Hx as [[k n] [E Hin]].
    simpl in E. subst k. apply filter_In in Hin. destruct Hin as [Hin Hge].
    simpl in Hge.
    apply (Permutation_in _ (value_counts_Permutation s)) in Hin.
    pose proof (in_map fst _ _ Hin) as Hkey. simpl in Hkey.
    apply tally_keys, filter_In in Hkey. destruct Hkey as [_ Hna].
    apply tally_In in Hin. destruct Hin as [-> _].
    rewrite (count_occ_filter_notna s c Hna) in Hge. now split.
  - intros [Hna Hge]. exists c. split; [| now apply cell_eqb_eq].
    assert (Hkey : In c (map fst (tally s))).
    { apply tally_keys, filter_In. now split. }
    apply in_map_iff in Hkey. destruct Hkey as [[k n] [E Hin]].
    simpl in E. subst k.
    apply in_map_iff. exists (c, n). split; [reflexivity |].
    apply filter_In. split.
    + apply (Permutation_in _ (Permutation_sym (value_counts_Permutation s))).
      exact Hin.
    + simpl. apply tally_In in Hin. destruct Hin as [-> _].
      now rewrite (count_occ_filter_notna s c Hna).
Qed.

(** ** [select_equal_rows_stock] *)

Lemma getattr_tic (df : DataFrame) :
  In "tic" (columns df) -> getattr df "tic" = Ok (tickers df).
Proof.
  intros H. destruct (position_In _ _ H) as [i Hi].
  unfold getattr, tickers, field, column_values. now rewrite Hi.
Qed.

(** The filter computed by lines 91-98 keeps the rows whose ticker meets the
    mean, in their order. *)
Lemma select_equal_rows_stock_filter (df : DataFrame) :
  In "tic" (columns df) ->
  select_equal_rows_stock df
  = Ok {| index_name := index_name df;
          columns := columns df;
          rows := filter (fun r => meets_mean df (field df "tic" r)) (rows df) |}.
Proof.
  intros H. unfold select_equal_rows_stock.
  rewrite (getattr_tic df H). cbn [and_then].
  unfold select_rows. do 2 f_equal.
  rewrite (map_map snd), mask_select_map.
  set (selected := map fst _).
  unfold isin, tickers. rewrite map_map, mask_select_filter.
  apply filter_ext_in. intros r Hr. subst selected.
  fold (tickers df).
  rewrite isin_selected by (unfold tickers; now apply in_map).
  unfold meets_mean, mean_row_count, row_count, distinct_tickers.
  now rewrite value_counts_mean.
Qed.

Lemma distinct_tickers_In (df : DataFrame) (t : cell) :
  In t (distinct_tickers df)
  <-> exists r, In r (rows df) /\ field df "tic" r = t /\ notna t = true.
Proof.
  unfold distinct_tickers, tickers. rewrite nodup_In, filter_In, in_map_iff.
  split.
  - intros [[r [E Hr]] Hna]. now exists r.
  - intros [r [Hr [E Hna]]]. split; [now exists r | exact Hna].
Qed.

Lemma list_sum_bounded (l : list nat) (m : nat) :
  (forall x, In x l -> x <= m) -> list_sum l <= m * length l.
Proof.
  induction l as [| x l IH]; intros H; simpl; [lia |].
  assert (x <= m) by (apply H; now left).
  assert (list_sum l <= m * length l) by (apply IH; intros; apply H; now right).
  lia.
Qed.

(** A ticker whose row count bounds every row count meets the mean. *)
Lemma meets_mean_of_bound (df : DataFrame) (t : cell) :
  In t (distinct_tickers df) ->
  (forall t', In t' (distinct_tickers df) ->
              row_count df t' <= row_count df t) ->
  meets_mean df t = true.
Proof.
  intros Ht Hmax. unfold meets_mean. apply andb_true_iff. split.
  - apply distinct_tickers_In in Ht. now destruct Ht as [r [_ [_ Hna]]].
  - unfold mean_row_count. apply ge_mean_iff. split.
    + destruct (distinct_tickers df); [contradiction | discriminate].
    + apply list_sum_bounded. intros x Hx.
      apply in_map_iff in Hx. destruct Hx as [t' [<- Ht']]. now apply Hmax.
Qed.

Lemma greatest_row_count (df : DataFrame) (l : list cell) :
  l <> [] ->
  exists t, In t l /\ forall t', In t' l -> row_count df t' <= row_count df t.
Proof.
  induction l as [| a l IH]; [congruence |]. intros _.
  destruct l as [| b l].
  - exists a. split; [now left |]. intros t' [<- | []]. lia.
  - destruct IH as [t [Ht Hmax]]; [discriminate |].
    destruct (le_lt_dec (row_count df a) (row_count df t)) as [Hle | Hlt].
    + exists t. split; [now right |].
      intros t' [<- | Ht']; [exact Hle | now apply Hmax].
    + exists a. split; [now left |].
      intros t' [<- | Ht']; [lia |].
      specialize (Hmax t' Ht'). lia.
Qed.

Lemma filter_id {A : Type} (f : A -> bool) (l : list A) :
  (forall x, In x l -> f x = true) -> filter f l = l.
Proof.
  intros H. induction l as [| x l IH]; simpl; [reflexivity |].
  rewrite (H x (or_introl eq_refl)). f_equal.
  apply IH. intros y Hy. apply H. now right.
Qed.



(** C5. If, in the table [select_equal_rows_stock] returns, every remaining
    ticker has at least the mean number of rows of the remaining tickers, then
    applying [select_equal_rows_stock] to that table returns it unchanged. *)
Theorem select_equal_rows_stock_idempotent (t out : DataFrame) :
  In "tic" (columns t) ->
  select_equal_rows_stock t = Ok out ->
  (forall tic, In tic (distinct_tickers out) -> meets_mean out tic = true) ->
  select_equal_rows_stock out = Ok out.
Proof.
  intros Htic Hout Hmeets.
  rewrite (select_equal_rows_stock_filter t Htic) in Hout.
  injection Hout as Hout.
  assert (Hcols : columns out = columns t) by now subst out.
  assert (Htic' : In "tic" (columns out)) by now rewrite Hcols.
  rewrite (select_equal_rows_stock_filter out Htic').
  rewrite filter_id.
  - now destruct out.
  - intros r Hr. apply Hmeets. apply distinct_tickers_In.
    exists r. split; [exact Hr |]. split; [reflexivity |].
    assert (Hfield : field out "tic" r = field t "tic" r)
      by (unfold field; now rewrite Hcols).
    rewrite Hfield. rewrite <- Hout in Hr. cbn [rows] in Hr.
    apply filter_In in Hr. destruct Hr as [_ Hr].
    unfold meets_mean in Hr. now apply andb_true_iff in Hr.
Qed.

(** AAA and BBB, with three rows each, outweigh CCC; on what is left both
    tickers meet the mean of three, and the second application changes
    nothing. *)
Lemma select_equal_rows_stock_twice_three_three_one :
  exists out,
    select_equal_rows_stock three_three_one = Ok out
    /\ length (rows out) = 6
    /\ select_equal_rows_stock out = Ok out.
Proof.
  eexists. split; [vm_compute; reflexivity |]. split; [reflexivity |].
  apply (select_equal_rows_stock_idempotent three_three_one).
  - simpl. tauto.
  - vm_compute. reflexivity.
  - intros tic H. vm_compute in H.
    destruct H as [<- | [<- | []]]; vm_compute; reflexivity.
Defined.




(** ** Statements *)

Lemma bind_Ok {A B : Type} (c : Py A) (k : A -> Py B) (s s2 : Locals) (b : B) :
  bind c k s = (Ok b, s2) ->
  exists a s1, c s = (Ok a, s1) /\ k a s1 = (Ok b, s2).
Proof.
  unfold bind. destruct (c s) as [[a | e] s1]; intros H.
  - now exists a, s1.
  - discriminate.
Qed.

Lemma call_Ok {A : Type} (r : result A) (s s1 : Locals) (a : A) :
  call r s = (Ok a, s1) -> r = Ok a /\ s1 = s.
Proof. unfold call. intros H. injection H as -> ->. now split. Qed.

Lemma read_data_df_Ok (s s1 : Locals) (df : DataFrame) :
  read_data_df s = (Ok df, s1) -> data_df s = Some df /\ s1 = s.
Proof.
  unfold read_data_df. destruct (data_df s); intros H; [| discriminate].
  injection H as -> ->. now split.
Qed.

Lemma assign_data_df_Ok (v : DataFrame) (s s1 : Locals) (u : unit) :
  assign_data_df v s = (Ok u, s1) ->
  s1 = {| data_df := Some v; data := data s; stdout := stdout s |}.
Proof. unfold assign_data_df. intros H. now injection H as _ <-. Qed.

Lemma print_Ok (line : Printed) (s s1 : Locals) (u : unit) :
  print line s = (Ok u, s1) ->
  s1 = {| data_df := data_df s; data := data s; stdout := stdout s ++ [line] |}.
Proof. unfold print. intros H. now injection H as _ <-. Qed.

(** One step through a run that returned: split the leading statement off and
    read what it did. *)
Tactic Notation "run_step" hyp(H) "as" ident(a) ident(Hc) :=
  let s := fresh "s" in
  apply bind_Ok in H; destruct H as (a & s & Hc & H);
  first
    [ apply read_data_df_Ok in Hc; destruct Hc as [Hc ->]; cbn [data_df] in Hc
    | apply assign_data_df_Ok in Hc; subst s; cbn [data_df data stdout] in H
    | apply print_Ok in Hc; subst s; cbn [data_df data stdout] in H
    | apply call_Ok in Hc; destruct Hc as [Hc ->] ].

(** ** The loop over the completed futures *)

(** When the future that completes first has raised, the handler reads [data]
    before anything was assigned to it, and the call ends there. *)
Lemma fetch_data_first_future_raised
  (yf_download : string -> string -> string -> result DataFrame)
  (as_completed : list Future -> list Future) (self : YahooDownloader)
  (future : Future) (rest : list Future) (exc : PyException) :
  as_completed (future_to_url yf_download self) = future :: rest ->
  future_result future = Raise exc ->
  fetch_data yf_download as_completed self on_entry
  = (Raise (UnboundLocalError "data"),
     {| data_df := Some new_DataFrame; data := None; stdout := [] |}).
Proof.
  intros Hfirst H. unfold fetch_data, bind. rewrite Hfirst.
  cbn [assign_data_df on_entry for_each].
  unfold bind, collect, try_except_else, bind, call. rewrite H.
  reflexivity.
Qed.

(** So a call in which every fetch fails never returns a table. *)
Lemma fetch_data_every_fetch_failed
  (yf_download : string -> string -> string -> result DataFrame)
  (as_completed : list Future -> list Future) (self : YahooDownloader) :
  yields_each_once as_completed ->
  ticker_list self <> [] ->
  (forall tic, In tic (ticker_list self) ->
     exists exc,
       yf_download tic (start_date self) (end_date self) = Raise exc) ->
  fst (fetch_data yf_download as_completed self on_entry)
  = Raise (UnboundLocalError "data").
Proof.
  intros Hperm Hne Hall. specialize (Hperm (future_to_url yf_download self)).
  destruct (as_completed (future_to_url yf_download self)) as [| f rest] eqn:E.
  - apply Permutation_nil in Hperm. unfold future_to_url in Hperm.
    apply map_eq_nil in Hperm. congruence.
  - assert (Hin : In f (future_to_url yf_download self))
      by (apply (Permutation_in _ Hperm); now left).
    unfold future_to_url in Hin. apply in_map_iff in Hin.
    destruct Hin as [tic [Hf Htic]]. destruct (Hall tic Htic) as [exc Hexc].
    rewrite (fetch_data_first_future_raised _ _ _ f rest exc E);
      [reflexivity |].
    rewrite <- Hf. cbn [future_result]. unfold yf_downloader. now rewrite Hexc.
Qed.

(** C1. With [ticker_list = ["AAA", "BBB"]], AAA fetched and the fetch of BBB
    raising: when BBB's future completes first the call raises
    [UnboundLocalError] for [data], prints nothing and returns no table; when
    AAA's completes first it returns AAA's two complete rows and the line
    printed for BBB's failure shows AAA's frame. *)
Theorem fetch_data_AAA_and_failing_BBB :
  map url (last_submitted_first (future_to_url only_AAA AAA_and_BBB))
  = ["BBB"; "AAA"]
  /\ fetch_data only_AAA last_submitted_first AAA_and_BBB on_entry
     = (Raise (UnboundLocalError "data"),
        {| data_df := Some new_DataFrame; data := None; stdout := [] |})
  /\ exists table AAA_frame,
       only_AAA "AAA" "2020-01-01" "2020-01-07" = Ok AAA_quotes
       /\ AAA_frame = setitem_scalar AAA_quotes "tic" (Str "AAA")
       /\ fst (fetch_data only_AAA in_order_of_submission AAA_and_BBB on_entry)
          = Ok table
       /\ map (field table "tic") (rows table) = [Str "AAA"; Str "AAA"]
       /\ stdout
            (snd (fetch_data only_AAA in_order_of_submission AAA_and_BBB
                    on_entry))
          = [generated_an_exception AAA_frame
               (OtherException "No data found, symbol may be delisted");
             Shape_of_DataFrame (2, 7)].
Proof.
  split; [reflexivity |]. split; [reflexivity |].
  eexists. eexists. repeat split; vm_compute; reflexivity.
Qed.

(** ** Renaming the columns *)

(** The assignment to [columns] fails on a frame that does not have eight
    columns, and the [except] clause does not match what it raises. *)
Lemma rename_columns_mismatch (s : Locals) (df : DataFrame) :
  data_df s = Some df ->
  length (columns df) <> 8 ->
  rename_columns s = (Raise ValueError, s).
Proof.
  intros Hdf Hlen.
  unfold rename_columns, try_except, try_except_else, bind, read_data_df.
  rewrite Hdf. unfold call, set_columns.
  destruct (length _ =? length (columns df)) eqn:E.
  - apply Nat.eqb_eq in E. simpl in E. congruence.
  - reflexivity.
Qed.

(** C2. When the accumulated frame does not have eight columns, the
    assignment to [columns] raises [ValueError]; the [except] clause names
    [NotImplementedError], which [ValueError] is not, so the exception leaves
    the block: nothing is printed and the state is as it was. *)
Theorem rename_columns_ValueError_not_caught (s : Locals) (df : DataFrame) :
  data_df s = Some df ->
  length (columns df) <> 8 ->
  is_NotImplementedError ValueError = false
  /\ rename_columns s = (Raise ValueError, s).
Proof.
  intros Hdf Hlen. split; [reflexivity |].
  now apply rename_columns_mismatch with (df := df).
Qed.

(** The frame [pd.DataFrame().reset_index()] of an empty [ticker_list] has the
    single column [index]. *)
Lemma rename_columns_of_empty_frame :
  let s := {| data_df := Some {| index_name := None;
                                 columns := ["index"];
                                 rows := [] |};
              data := None;
              stdout := [] |} in
  reset_index new_DataFrame = Ok {| index_name := None;
                                    columns := ["index"];
                                    rows := [] |}
  /\ rename_columns s = (Raise ValueError, s).
Proof.
  cbv zeta. split; [reflexivity |].
  eapply rename_columns_ValueError_not_caught; [reflexivity | simpl; lia].
Defined.

(** C3. For an empty [ticker_list], whatever the vendor and the date range,
    the call raises [ValueError] and returns no table: the frame that reaches
    line 71 is [pd.DataFrame().reset_index()], of one column. *)
Theorem fetch_data_empty_ticker_list
  (yf_download : string -> string -> string -> result DataFrame)
  (as_completed : list Future -> list Future)
  (start_date end_date : string) :
  yields_each_once as_completed ->
  fetch_data yf_download as_completed
    {| start_date := start_date; end_date := end_date; ticker_list := [] |}
    on_entry
  = (Raise ValueError,
     {| data_df := Some {| index_name := None;
                           columns := ["index"];
                           rows := [] |};
        data := None;
        stdout := [] |}).
Proof.
  intros Hperm. unfold fetch_data, future_to_url. cbn [ticker_list map].
  rewrite (Permutation_nil (Permutation_sym (Hperm []))). reflexivity.
Qed.

(** The empty list under the vendor that has AAA. *)
Lemma fetch_data_empty_ticker_list_only_AAA :
  yields_each_once in_order_of_submission
  /\ fst (fetch_data only_AAA in_order_of_submission
            {| start_date := "2020-01-01"; end_date := "2020-01-07";
               ticker_list := [] |}
            on_entry)
     = Raise ValueError.
Proof.
  assert (H : yields_each_once in_order_of_submission)
    by (intros l; apply Permutation_refl).
  split; [exact H |].
  now rewrite (fetch_data_empty_ticker_list only_AAA in_order_of_submission
                 "2020-01-01" "2020-01-07" H).
Defined.

(** ** The steps after the loop *)

Lemma combine_map_r {A B : Type} (g : A -> B) (l : list A) :
  combine l (map g l) = map (fun x => (x, g x)) l.
Proof. induction l as [| x l IH]; simpl; [reflexivity | now rewrite IH]. Qed.

Lemma setitem_of_rows (df : DataFrame) (label : string) (g : Row -> cell) :
  setitem df label (map g (rows df))
  = {| index_name := index_name df;
       columns := set_label label (columns df);
       rows := map (fun r => (fst r, set_cell label (columns df) (g r) (snd r)))
                   (rows df) |}.
Proof.
  unfold setitem. now rewrite combine_map_r, map_map.
Qed.

Lemma rename_columns_eight (s : Locals) (df : DataFrame) :
  data_df s = Some df ->
  length (columns df) = 8 ->
  rename_columns s
  = (Ok tt, {| data_df := Some (renamed df); data := data s;
               stdout := stdout s |}).
Proof.
  intros Hdf Hlen.
  unfold rename_columns, try_except, try_except_else, bind, read_data_df.
  rewrite Hdf. unfold call at 1. unfold set_columns. rewrite Hlen.
  cbn [Nat.eqb length assign_data_df data_df data stdout].
  unfold call at 1, getitem.
  cbn [columns position String.eqb Ascii.eqb Bool.eqb option_map].
  unfold column_values. cbn [rows].
  pose proof (setitem_of_rows
                {| index_name := index_name df;
                   columns := renamed_labels;
                   rows := rows df |}
                "close" (fun r => nth 5 (snd r) NaN)) as E.
  cbn [index_name columns rows] in E. unfold renamed_labels in E at 1 2.
  unfold Row in *. rewrite E. clear E.
  unfold call, drop. cbn [index_name columns rows]. rewrite map_map.
  reflexivity.
Qed.

Lemma apply_strftime_Ok (s s' : Series) :
  apply strftime s = Ok s' ->
  s' = map date_string s /\ Forall is_timestamp s.
Proof.
  revert s'. induction s as [| x s IH]; intros s' H; simpl in H.
  - injection H as <-. now split.
  - destruct x as [| | q | str | t]; try discriminate.
    simpl in H. destruct (apply strftime s) as [ys |]; [| discriminate].
    injection H as <-. destruct (IH ys eq_refl) as [-> Hall].
    split; [reflexivity |]. constructor; [now exists t | exact Hall].
Qed.

(** A call that returns a table went through every step: the loop ended
    normally, the accumulated frame had seven columns and got eight by
    [reset_index], its index held timestamps only, and the table is made of
    its rows that have no missing value. *)
Lemma fetch_data_Ok
  (yf_download : string -> string -> string -> result DataFrame)
  (as_completed : list Future -> list Future) (self : YahooDownloader)
  (s s' : Locals) (table : DataFrame) :
  fetch_data yf_download as_completed self s = (Ok table, s') ->
  exists s2 d d1,
    for_each (as_completed (future_to_url yf_download self)) collect
      {| data_df := Some new_DataFrame; data := data s; stdout := stdout s |}
    = (Ok tt, s2)
    /\ data_df s2 = Some d
    /\ reset_index d = Ok d1
    /\ length (columns d1) = 8
    /\ Forall is_timestamp (column_values 0 (renamed d1))
    /\ table
       = reset_index_drop
           (dropna
              {| index_name := None;
                 columns := output_labels;
                 rows := map (fun r => (fst r, format_date (use_adjcp (snd r))))
                             (rows d1) |}).
Proof.
  intros H. unfold fetch_data in H.
  run_step H as u0 Hassign.
  apply bind_Ok in H. destruct H as (u1 & s2 & Hloop & H). destruct u1.
  run_step H as d Hd.
  run_step H as d1 Hreset.
  run_step H as u2 Hassign1.
  apply bind_Ok in H. destruct H as (u3 & s3 & Hren & H).
  exists s2, d, d1. split; [exact Hloop |]. split; [exact Hd |].
  split; [exact Hreset |].
  destruct (Nat.eq_dec (length (columns d1)) 8) as [Hlen | Hlen].
  2:{ rewrite (rename_columns_mismatch
                 {| data_df := Some d1; data := data s2; stdout := stdout s2 |}
                 d1 eq_refl Hlen) in Hren.
      discriminate. }
  split; [exact Hlen |].
  rewrite (rename_columns_eight
             {| data_df := Some d1; data := data s2; stdout := stdout s2 |}
             d1 eq_refl Hlen) in Hren.
  injection Hren as _ <-. cbn [data_df data stdout] in H.
  run_step H as d2 Hd2. injection Hd2 as <-.
  run_step H as date Hdate. unfold getattr in Hdate.
  cbn [renamed columns output_labels position String.eqb Ascii.eqb Bool.eqb]
    in Hdate.
  injection Hdate as <-.
  run_step H as date' Hdate'.
  apply apply_strftime_Ok in Hdate'. destruct Hdate' as [-> Hts].
  split; [exact Hts |].
  run_step H as u4 Hassign2.
  run_step H as d3 Hd3. injection Hd3 as <-.
  run_step H as u5 Hassign3.
  run_step H as d4 Hd4. injection Hd4 as <-.
  run_step H as u6 Hassign4.
  run_step H as d5 Hd5. injection Hd5 as <-.
  run_step H as u7 Hprint.
  apply read_data_df_Ok in H. destruct H as [H _].
  cbn [data_df] in H. injection H as <-.
  unfold column_values. rewrite map_map.
  rewrite (setitem_of_rows _ "date" (fun r => date_string (nth 0 (snd r) NaN))).
  unfold renamed. cbn [index_name columns rows]. rewrite map_map.
  reflexivity.
Qed.

Lemma map_snd_combine_same_length {A B : Type} (l1 : list A) (l2 : list B) :
  length l1 = length l2 -> map snd (combine l1 l2) = l2.
Proof.
  revert l2. induction l1 as [| x l1 IH]; intros [| y l2] H; simpl in *;
    try discriminate; [reflexivity |].
  f_equal. apply IH. now injection H.
Qed.

Lemma filter_on_values (p : list cell -> bool) (l : list Row) :
  map snd (filter (fun r => p (snd r)) l) = filter p (map snd l).
Proof.
  induction l as [| r l IH]; simpl; [reflexivity |].
  destruct (p (snd r)); simpl; now rewrite IH.
Qed.

Lemma values_with_RangeIndex (values : list (list cell)) :
  map snd (with_RangeIndex values) = values.
Proof.
  unfold with_RangeIndex, RangeIndex. apply map_snd_combine_same_length.
  now rewrite length_map, length_seq.
Qed.

Lemma reset_index_Ok (d d1 : DataFrame) :
  reset_index d = Ok d1 ->
  length (columns d1) = S (length (columns d))
  /\ map snd (rows d1) = map (fun r => fst r :: snd r) (rows d).
Proof.
  unfold reset_index. destruct (has_column _ (columns d)); [discriminate |].
  intros H. injection H as <-. cbn [columns rows length].
  split; [reflexivity | apply values_with_RangeIndex].
Qed.

Lemma first_of_use_adjcp (x : cell) (cells : list cell) :
  nth 0 (use_adjcp (x :: cells)) NaN = x.
Proof. reflexivity. Qed.

(** The table a call returns, in terms of the frame the loop accumulated. *)
Lemma fetch_data_rows
  (yf_download : string -> string -> string -> result DataFrame)
  (as_completed : list Future -> list Future) (self : YahooDownloader)
  (s s' : Locals) (table : DataFrame) :
  fetch_data yf_download as_completed self s = (Ok table, s') ->
  exists s2 d,
    for_each (as_completed (future_to_url yf_download self)) collect
      {| data_df := Some new_DataFrame; data := data s; stdout := stdout s |}
    = (Ok tt, s2)
    /\ data_df s2 = Some d
    /\ length (columns d) = 7
    /\ Forall is_timestamp (map fst (rows d))
    /\ columns table = output_labels
    /\ map snd (rows table) = filter (forallb notna) (map normalized (rows d)).
Proof.
  intros H. apply fetch_data_Ok in H.
  destruct H as (s2 & d & d1 & Hloop & Hd & Hreset & Hlen & Hts & ->).
  apply reset_index_Ok in Hreset. destruct Hreset as [Hcols Hrows].
  exists s2, d. split; [exact Hloop |]. split; [exact Hd |].
  split; [lia |]. split; [| split; [reflexivity |]].
  - unfold column_values, renamed in Hts. cbn [rows] in Hts.
    rewrite map_map in Hts. cbn [snd] in Hts.
    rewrite <- (map_map snd (fun c => nth 0 (use_adjcp c) NaN)) in Hts.
    rewrite Hrows, map_map in Hts.
    erewrite map_ext in Hts; [exact Hts |].
    intros r. reflexivity.
  - unfold reset_index_drop, dropna. cbn [rows].
    rewrite values_with_RangeIndex.
    rewrite filter_on_values.
    f_equal. rewrite map_map. cbn [snd].
    rewrite <- (map_map snd (fun c => format_date (use_adjcp c))).
    rewrite Hrows, map_map. reflexivity.
Qed.

(** C8, as the code has it. No row of the table a call returns has a missing
    value in any column: the table consists of the rows of the accumulated
    frame that, once brought to the output schema (lines 68-80: the adjusted
    close in place of the close), have no missing value, and the others are
    discarded. *)
Theorem fetch_data_no_missing_value
  (yf_download : string -> string -> string -> result DataFrame)
  (as_completed : list Future -> list Future) (self : YahooDownloader)
  (s s' : Locals) (table : DataFrame) :
  fetch_data yf_download as_completed self s = (Ok table, s') ->
  Forall (fun r => Forall (fun c => isna c = false) (snd r)) (rows table)
  /\ exists s2 d,
       for_each (as_completed (future_to_url yf_download self)) collect
         {| data_df := Some new_DataFrame; data := data s; stdout := stdout s |}
       = (Ok tt, s2)
       /\ data_df s2 = Some d
       /\ map snd (rows table)
          = filter (forallb notna) (map normalized (rows d)).
Proof.
  intros H. apply fetch_data_rows in H.
  destruct H as (s2 & d & Hloop & Hd & _ & _ & _ & Hrows).
  split; [| now exists s2, d].
  apply Forall_forall. intros r Hr.
  apply (in_map snd) in Hr. rewrite Hrows in Hr.
  apply filter_In in Hr. destruct Hr as [_ Hr].
  rewrite forallb_forall in Hr. apply Forall_forall. intros c Hc.
  specialize (Hr c Hc). unfold notna in Hr.
  now destruct (isna c).
Qed.

(** AAA's second day has no high; the table returned has the other two
    days. *)
Lemma fetch_data_no_missing_value_just_AAA :
  exists table s',
    fetch_data only_AAA in_order_of_submission just_AAA on_entry
    = (Ok table, s')
    /\ length (rows AAA_quotes) = 3
    /\ length (rows table) = 2
    /\ Forall (fun r => Forall (fun c => isna c = false) (snd r)) (rows table).
Proof.
  eexists. eexists. split; [vm_compute; reflexivity |].
  split; [reflexivity |]. split; [reflexivity |].
  refine (proj1 (fetch_data_no_missing_value
                   only_AAA in_order_of_submission just_AAA on_entry _ _ _)).
  vm_compute. reflexivity.
Defined.

(** The vendor's row has no raw close, so it contains a missing field; its
    adjusted close takes the place of the close before line 82 looks for
    missing values, and the row is returned. *)
Lemma fetch_data_keeps_row_without_raw_close :
  without_raw_close "AAA" "2020-01-01" "2020-01-07"
  = Ok {| index_name := Some "Date";
          columns := ["Open"; "High"; "Low"; "Close"; "Adj Close"; "Volume"];
          rows := [(on_day 2020 1 2,
                    [Num 10; Num 12; Num 9; NaN; Num (21 # 2); Num 1000])] |}
  /\ fst (fetch_data without_raw_close in_order_of_submission just_AAA on_entry)
     = Ok {| index_name := None;
             columns := ["date"; "open"; "high"; "low"; "close"; "volume";
                         "tic"];
             rows := [(Num 0,
                       [Str "2020-01-02"; Num 10; Num 12; Num 9; Num (21 # 2);
                        Num 1000; Str "AAA"])] |}.
Proof. split; reflexivity. Qed.

(** ** The date format *)

Lemma is_digit_digit (n : N) : is_digit (digit (n mod 10)) = true.
Proof.
  assert (H : (n mod 10 < 10)%N) by (apply N.mod_lt; discriminate).
  revert H. generalize (n mod 10)%N. intros d H.
  unfold is_digit, digit. rewrite N_ascii_embedding by lia.
  apply andb_true_iff. split; apply N.leb_le; lia.
Qed.

Lemma zfill_fits (width : nat) (n : N) :
  (n < 10 ^ N.of_nat width)%N -> zfill width n = fixed width n.
Proof.
  intros H. unfold zfill. apply N.ltb_lt in H. now rewrite H.
Qed.

Lemma strftime_Ymd_matches (t : Timestamp) :
  calendar_day t -> matches_YYYY_MM_DD (strftime_Ymd t) = true.
Proof.
  intros [Hy [Hm Hd]]. unfold strftime_Ymd.
  rewrite (zfill_fits 4), !(zfill_fits 2)
    by (change (10 ^ N.of_nat 4)%N with 10000%N;
        change (10 ^ N.of_nat 2)%N with 100%N; lia).
  unfold matches_YYYY_MM_DD.
  cbn [fixed String.append list_ascii_of_string].
  rewrite !is_digit_digit. reflexivity.
Qed.

(** ** The loop under the layout line 71 assumes *)

Lemma has_column_false (label : string) (cols : list string) :
  ~ In label cols -> has_column label cols = false.
Proof.
  intros H. unfold has_column. induction cols as [| c cols IH]; simpl.
  - reflexivity.
  - destruct (String.eqb_spec label c) as [-> | _].
    + exfalso. apply H. now left.
    + apply IH. intros Hin. apply H. now right.
Qed.

Lemma collect_Ok (future : Future) (s s1 : Locals) (u : unit) :
  collect future s = (Ok u, s1) ->
  (exists exc, future_result future = Raise exc /\ data_df s1 = data_df s)
  \/ (exists r df df',
        future_result future = Ok r
        /\ data_df s = Some df
        /\ append df r = Ok df'
        /\ data_df s1 = Some df').
Proof.
  unfold collect, try_except_else, bind, call, read_data, read_data_df, print.
  destruct (future_result future) as [r | exc]; cbn.
  - intros H. right. destruct (data_df s) as [df |]; [| discriminate].
    destruct (append df r) as [df' |] eqn:E; [| discriminate].
    injection H as _ <-. now exists r, df, df'.
  - intros H. left. exists exc. split; [reflexivity |].
    destruct (data s); [| discriminate]. now injection H as _ <-.
Qed.

Section Assumed_layout.

Variable yf_download : string -> string -> string -> result DataFrame.
Variable as_completed : list Future -> list Future.
Variable self : YahooDownloader.

(** The vendor's column labels.  Line 71 names eight columns: the index,
    six columns of the vendor's, and the [tic] column of line 55. *)
Variable vendor_columns : list string.
Hypothesis six_columns : length vendor_columns = 6.
Hypothesis no_tic_column : ~ In "tic" vendor_columns.

(** Every frame the vendor returns for a ticker of the list has these columns
    and a value in each of them. *)
Hypothesis assumed_layout :
  forall tic df,
    In tic (ticker_list self) ->
    yf_download tic (start_date self) (end_date self) = Ok df ->
    columns df = vendor_columns
    /\ Forall (fun r => length (snd r) = 6) (rows df).

Lemma yf_downloader_Ok (tic : string) (r : DataFrame) :
  In tic (ticker_list self) ->
  yf_downloader yf_download self tic = Ok r ->
  columns r = vendor_columns ++ ["tic"]
  /\ Forall (quoted yf_download self) (rows r).
Proof.
  intros Htic. unfold yf_downloader.
  destruct (yf_download tic (start_date self) (end_date self)) as [df |] eqn:E;
    [| discriminate].
  intros H. injection H as <-.
  destruct (assumed_layout tic df Htic E) as [Hcols _].
  unfold setitem_scalar, set_label, set_cell. cbn [columns rows].
  rewrite Hcols, (has_column_false _ _ no_tic_column).
  split; [reflexivity |].
  apply Forall_forall. intros r Hr. apply in_map_iff in Hr.
  destruct Hr as [vr [<- Hvr]]. now exists tic, df, vr.
Qed.

Lemma append_accumulated (d r d' : DataFrame) :
  accumulated yf_download self vendor_columns d ->
  columns r = vendor_columns ++ ["tic"] ->
  Forall (quoted yf_download self) (rows r) ->
  append d r = Ok d' ->
  accumulated yf_download self vendor_columns d'.
Proof.
  intros [-> | [Hcols Hrows]] Hr Hq H; right.
  - cbn in H. injection H as <-. now split.
  - assert (Hlen : forall x, columns x = vendor_columns ++ ["tic"] ->
                     is_empty x = false).
    { intros x Hx. unfold is_empty. rewrite Hx, length_app, six_columns.
      apply Nat.eqb_neq. simpl. lia. }
    unfold append in H. rewrite (Hlen d Hcols), (Hlen r Hr) in H.
    unfold labels_eqb in H.
    destruct (list_eq_dec string_dec (columns d) (columns r)) as [_ | Hne];
      [| congruence].
    injection H as <-. cbn [columns rows].
    split; [exact Hcols | now apply Forall_app].
Qed.

Lemma for_each_collect_accumulated (completed : list Future)
  (s s2 : Locals) :
  incl completed (future_to_url yf_download self) ->
  for_each completed collect s = (Ok tt, s2) ->
  (exists d, data_df s = Some d
             /\ accumulated yf_download self vendor_columns d) ->
  exists d, data_df s2 = Some d
            /\ accumulated yf_download self vendor_columns d.
Proof.
  revert s. induction completed as [| f rest IH]; intros s Hincl H Hacc.
  - cbn in H. now injection H as <-.
  - cbn [for_each] in H. apply bind_Ok in H.
    destruct H as (u & s1 & Hf & H).
    apply (IH s1); [intros x Hx; apply Hincl; now right | exact H |].
    destruct Hacc as [d [Hd Hacc]].
    apply collect_Ok in Hf.
    destruct Hf as [[exc [_ Hs1]] | (r & df & df' & Hres & Hdf & Happ & Hs1)].
    + exists d. split; [congruence | exact Hacc].
    + exists df'. split; [exact Hs1 |].
      assert (Hin : In f (future_to_url yf_download self))
        by (apply Hincl; now left).
      unfold future_to_url in Hin. apply in_map_iff in Hin.
      destruct Hin as [tic [<- Htic]]. cbn [future_result] in Hres.
      destruct (yf_downloader_Ok tic r Htic Hres) as [Hcols Hrows].
      rewrite Hd in Hdf. injection Hdf as <-.
      now apply (append_accumulated d r df').
Qed.

(** Under the assumed layout every row of the table returned is a row of the
    vendor's for a ticker of the list: its date formatted, its open, high and
    low, its adjusted close, its volume, and the ticker. *)
Lemma fetch_data_rows_quoted (s s' : Locals) (table : DataFrame) :
  yields_each_once as_completed ->
  fetch_data yf_download as_completed self s = (Ok table, s') ->
  columns table = output_labels
  /\ Forall
       (fun r =>
          exists tic df t o h l c a v,
            In tic (ticker_list self)
            /\ yf_download tic (start_date self) (end_date self) = Ok df
            /\ In (Ts t, [o; h; l; c; a; v]) (rows df)
            /\ snd r = [Str (strftime_Ymd t); o; h; l; a; v; Str tic])
       (rows table).
Proof.
  intros Hperm H. apply fetch_data_rows in H.
  destruct H as (s2 & d & Hloop & Hd & Hlen & Hts & Hcols & Hrows).
  split; [exact Hcols |].
  apply for_each_collect_accumulated in Hloop.
  - destruct Hloop as [d' [Hd' Hacc]]. rewrite Hd in Hd'. injection Hd' as <-.
    destruct Hacc as [-> | [_ Hq]]; [discriminate |].
    apply Forall_forall. intros r Hr.
    apply (in_map snd) in Hr. rewrite Hrows in Hr.
    apply filter_In in Hr. destruct Hr as [Hr _].
    apply in_map_iff in Hr. destruct Hr as [r0 [Hnorm Hr0]].
    rewrite Forall_forall in Hq, Hts.
    destruct (Hts (fst r0) (in_map fst _ _ Hr0)) as [t Ht].
    destruct (Hq r0 Hr0) as (tic & df & vr & Htic & Hdf & Hvr & ->).
    destruct (assumed_layout tic df Htic Hdf) as [_ Hsix].
    rewrite Forall_forall in Hsix. specialize (Hsix vr Hvr).
    destruct vr as [idx cells]. cbn [fst snd] in *. subst idx.
    destruct cells as [| o [| h [| l [| c [| a [| v [| x cells]]]]]]];
      try discriminate.
    exists tic, df, t, o, h, l, c, a, v.
    repeat split; try assumption. rewrite <- Hnorm. reflexivity.
  - intros x Hx. now apply (Permutation_in _ (Hperm _)).
  - exists new_DataFrame. split; [reflexivity | now left].
Qed.

(** C6. When the vendor returns the assumed layout, every row of the table
    returned is made of a vendor row for a ticker of the list, and its
    [close] is that row's adjusted close (the fifth of the vendor's six
    values; the fourth, the raw close, is not in the row); the columns are
    exactly date, open, high, low, close, volume, tic, without [adjcp]. *)
Theorem fetch_data_close_is_adjusted_close (table : DataFrame) (s' : Locals) :
  yields_each_once as_completed ->
  fetch_data yf_download as_completed self on_entry = (Ok table, s') ->
  columns table = ["date"; "open"; "high"; "low"; "close"; "volume"; "tic"]
  /\ ~ In "adjcp" (columns table)
  /\ Forall
       (fun r =>
          exists tic df t o h l c a v,
            In tic (ticker_list self)
            /\ yf_download tic (start_date self) (end_date self) = Ok df
            /\ In (Ts t, [o; h; l; c; a; v]) (rows df)
            /\ field table "tic" r = Str tic
            /\ field table "date" r = Str (strftime_Ymd t)
            /\ field table "close" r = a
            /\ snd r = [Str (strftime_Ymd t); o; h; l; a; v; Str tic])
       (rows table).
Proof.
  intros Hperm H.
  destruct (fetch_data_rows_quoted _ _ _ Hperm H) as [Hcols Hrows].
  split; [exact Hcols |]. split.
  - rewrite Hcols. simpl. intuition discriminate.
  - apply Forall_forall. intros r Hr. rewrite Forall_forall in Hrows.
    destruct (Hrows r Hr) as (tic & df & t & o & h & l & c & a & v
                              & Htic & Hdf & Hvr & Hcells).
    exists tic, df, t, o, h, l, c, a, v.
    unfold field. rewrite Hcols, Hcells. repeat split; assumption.
Qed.

(** C7, as the code has it. When the vendor returns the assumed layout,
    every value in the [tic] column of the table returned is a ticker of
    [ticker_list]. *)
Theorem fetch_data_tic_in_ticker_list (table : DataFrame) (s' : Locals) :
  yields_each_once as_completed ->
  fetch_data yf_download as_completed self on_entry = (Ok table, s') ->
  Forall
    (fun r => exists tic, In tic (ticker_list self)
                          /\ field table "tic" r = Str tic)
    (rows table).
Proof.
  intros Hperm H.
  destruct (fetch_data_rows_quoted _ _ _ Hperm H) as [Hcols Hrows].
  apply Forall_forall. intros r Hr. rewrite Forall_forall in Hrows.
  destruct (Hrows r Hr) as (tic & df & t & o & h & l & c & a & v
                            & Htic & _ & _ & Hcells).
  exists tic. split; [exact Htic |].
  unfold field. now rewrite Hcols, Hcells.
Qed.


End Assumed_layout.

(** ** The examples *)

Lemma only_AAA_layout (self : YahooDownloader) (tic : string) (df : DataFrame) :
  only_AAA tic (start_date self) (end_date self) = Ok df ->
  columns df = Yahoo_columns
  /\ Forall (fun r => length (snd r) = 6) (rows df).
Proof.
  unfold only_AAA. destruct (String.eqb tic "AAA"); [| discriminate].
  intros H. injection H as <-. split; [reflexivity |].
  repeat constructor.
Qed.

Lemma Yahoo_columns_no_tic : ~ In "tic" Yahoo_columns.
Proof. simpl. intuition discriminate. Qed.

Lemma in_order_of_submission_yields_each_once :
  yields_each_once in_order_of_submission.
Proof. intros futures. apply Permutation_refl. Qed.

(** AAA's adjusted closes on its two complete days are 21/2 and 25/2, and
    these are the closes returned. *)
Lemma fetch_data_close_of_AAA :
  exists table s',
    fetch_data only_AAA in_order_of_submission AAA_and_BBB on_entry
    = (Ok table, s')
    /\ columns table = ["date"; "open"; "high"; "low"; "close"; "volume"; "tic"]
    /\ map (field table "close") (rows table) = [Num (21 # 2); Num (25 # 2)].
Proof.
  eexists. eexists. split; [vm_compute; reflexivity |].
  split; [| reflexivity].
  refine (proj1 (fetch_data_close_is_adjusted_close
                   only_AAA in_order_of_submission AAA_and_BBB
                   Yahoo_columns eq_refl Yahoo_columns_no_tic
                   (fun tic df _ => only_AAA_layout AAA_and_BBB tic df)
                   _ _ in_order_of_submission_yields_each_once _)).
  vm_compute. reflexivity.
Defined.

(** The table returned for AAA and the failing BBB names AAA only. *)
Lemma fetch_data_tic_of_AAA :
  exists table s',
    fetch_data only_AAA in_order_of_submission AAA_and_BBB on_entry
    = (Ok table, s')
    /\ map (field table "tic") (rows table) = [Str "AAA"; Str "AAA"]
    /\ Forall
         (fun r => exists tic, In tic ["AAA"; "BBB"]
                               /\ field table "tic" r = Str tic)
         (rows table).
Proof.
  eexists. eexists. split; [vm_compute; reflexivity |].
  split; [reflexivity |].
  refine (fetch_data_tic_in_ticker_list
            only_AAA in_order_of_submission AAA_and_BBB
            Yahoo_columns eq_refl Yahoo_columns_no_tic
            (fun tic df _ => only_AAA_layout AAA_and_BBB tic df)
            _ _ in_order_of_submission_yields_each_once _).
  vm_compute. reflexivity.
Defined.

(** A vendor whose frames have a [tic] column of their own ahead of the six:
    line 55 overwrites it in place, the eight names of line 71 land one
    column to the left, and the column named [tic] in the table returned
    holds the vendor's volume. *)
Lemma fetch_data_tic_of_vendor_with_its_own_tic :
  ticker_list just_AAA = ["AAA"]
  /\ exists table s',
       fetch_data with_its_own_tic in_order_of_submission just_AAA on_entry
       = (Ok table, s')
       /\ map (field table "tic") (rows table) = [Num 1000].
Proof.
  split; [reflexivity |].
  eexists. eexists. split; [vm_compute; reflexivity | reflexivity].
Qed.

Lemma AAA_quotes_calendar_days (self : YahooDownloader) (tic : string)
  (df : DataFrame) :
  only_AAA tic (start_date self) (end_date self) = Ok df ->
  Forall (fun r => forall t, fst r = Ts t -> calendar_day t) (rows df).
Proof.
  unfold only_AAA. destruct (String.eqb tic "AAA"); [| discriminate].
  intros H. injection H as <-.
  apply Forall_forall. intros r Hr t Ht. simpl in Hr.
  destruct Hr as [<- | [<- | [<- | []]]]; injection Ht as <-;
    unfold calendar_day; cbn; lia.
Qed.


(** * Further properties *)

(** ** [select_equal_rows_stock]: the [tic] column, whole tickers, equal
    counts *)

Lemma position_not_In (label : string) (cols : list string) :
  ~ In label cols -> position label cols = None.
Proof.
  induction cols as [| c cols IH]; simpl; [reflexivity |].
  intros H. destruct (String.eqb_spec c label) as [-> | _].
  - exfalso. apply H. now left.
  - rewrite IH; [reflexivity |]. intros Hin. apply H. now right.
Qed.

(** X9. A frame without a [tic] column makes the first [df.tic] of
    [select_equal_rows_stock] raise [AttributeError]; no table is returned. *)
Theorem select_equal_rows_stock_without_tic_column (df : DataFrame) :
  ~ In "tic" (columns df) ->
  select_equal_rows_stock df = Raise (AttributeError "tic").
Proof.
  intros H. unfold select_equal_rows_stock, getattr.
  now rewrite (position_not_In _ _ H).
Qed.

(** The vendor's frame for AAA has no [tic] column yet. *)
Lemma select_equal_rows_stock_of_vendor_frame :
  columns AAA_quotes
  = ["Open"; "High"; "Low"; "Close"; "Adj Close"; "Volume"]
  /\ select_equal_rows_stock AAA_quotes = Raise (AttributeError "tic").
Proof.
  split; [reflexivity |].
  apply select_equal_rows_stock_without_tic_column.
  simpl. intuition discriminate.
Defined.

(** X10. [select_equal_rows_stock] keeps or drops a ticker as a whole: when
    one row is returned, so is every row with the same [tic]. *)
Theorem select_equal_rows_stock_whole_tickers (df out : DataFrame)
  (r r' : Row) :
  In "tic" (columns df) ->
  select_equal_rows_stock df = Ok out ->
  In r (rows df) -> In r' (rows df) ->
  field df "tic" r = field df "tic" r' ->
  In r (rows out) -> In r' (rows out).
Proof.
  intros Htic Hout Hr Hr' E Hin.
  rewrite (select_equal_rows_stock_filter df Htic) in Hout.
  injection Hout as <-. cbn [rows] in *.
  apply filter_In in Hin. apply filter_In. split; [exact Hr' |].
  rewrite <- E. now destruct Hin.
Qed.

(** In the fourteen-row table the first row is AAA's and is returned, and so
    is the last, AAA's too. *)
Lemma select_equal_rows_stock_whole_AAA :
  let first := (Num 0, [Str "2020-01-02"; Num 1; Num 2; Num 1; Num 2;
                        Num 100; Str "AAA"]) in
  let last_ := (Num 13, [Str "2020-01-02"; Num 1; Num 2; Num 1; Num 2;
                         Num 100; Str "AAA"]) in
  exists out,
    select_equal_rows_stock ten_and_four = Ok out
    /\ In first (rows out)
    /\ In last_ (rows out).
Proof.
  cbv zeta. eexists.
  split; [vm_compute; reflexivity |].
  assert (Hfirst : forall l, In (Num 0, [Str "2020-01-02"; Num 1; Num 2; Num 1;
                                         Num 2; Num 100; Str "AAA"])
                      ((Num 0, [Str "2020-01-02"; Num 1; Num 2; Num 1;
                                Num 2; Num 100; Str "AAA"]) :: l))
    by (intros l; now left).
  split; [apply Hfirst |].
  eapply (select_equal_rows_stock_whole_tickers ten_and_four);
    [ simpl; tauto
    | vm_compute; reflexivity
    | | | | apply Hfirst ];
    [ vm_compute; tauto | vm_compute; tauto | reflexivity ].
Defined.

Lemma least_element (l : list nat) :
  l <> [] -> exists m, In m l /\ forall z, In z l -> m <= z.
Proof.
  induction l as [| a l IH]; [congruence |]. intros _.
  destruct l as [| b l].
  - exists a. split; [now left |]. intros z [<- | []]. lia.
  - destruct IH as [m [Hm Hleast]]; [discriminate |].
    destruct (le_lt_dec m a) as [Hle | Hlt].
    + exists m. split; [now right |].
      intros z [<- | Hz]; [exact Hle | now apply Hleast].
    + exists a. split; [now left |].
      intros z [<- | Hz]; [lia |]. specialize (Hleast z Hz). lia.
Qed.

Lemma list_sum_above_least (l : list nat) (m y : nat) :
  (forall z, In z l -> m <= z) -> In y l -> m < y ->
  m * length l < list_sum l.
Proof.
  induction l as [| a l IH]; intros Hleast Hy Hlt; [contradiction |].
  assert (Ha : m <= a) by (apply Hleast; now left).
  assert (Hl : m * length l <= list_sum l).
  { clear IH Hy. induction l as [| b l IHl]; simpl; [lia |].
    assert (m <= b) by (apply Hleast; right; now left).
    assert (m * length l <= list_sum l).
    { apply IHl. intros z [<- | Hz]; apply Hleast; [now left | right; now right]. }
    lia. }
  cbn [length list_sum fold_right]. fold (list_sum l).
  destruct Hy as [-> | Hy].
  - lia.
  - assert (m * length l < list_sum l).
    { apply IH; [| exact Hy | exact Hlt].
      intros z Hz. apply Hleast. now right. }
    lia.
Qed.

(** X11. [select_equal_rows_stock] returns every row that has a ticker
    exactly when all distinct tickers have the same row count; as soon as two
    counts differ, some ticker is dropped. *)
Theorem select_equal_rows_stock_keeps_all_iff_equal_counts
  (df out : DataFrame) :
  In "tic" (columns df) ->
  select_equal_rows_stock df = Ok out ->
  rows out = filter (fun r => notna (field df "tic" r)) (rows df)
  <-> (forall t t', In t (distinct_tickers df) -> In t' (distinct_tickers df) ->
                    row_count df t = row_count df t').
Proof.
  intros Htic Hout.
  rewrite (select_equal_rows_stock_filter df Htic) in Hout.
  injection Hout as <-. cbn [rows]. split.
  - intros Hrows.
    assert (Hmeets : forall t, In t (distinct_tickers df) ->
              list_sum (map (row_count df) (distinct_tickers df))
              <= row_count df t * length (map (row_count df) (distinct_tickers df))).
    { intros t Ht. pose proof Ht as Ht'. apply distinct_tickers_In in Ht'.
      destruct Ht' as [r [Hr [E Hna]]].
      assert (Hin : In r (filter (fun r => notna (field df "tic" r)) (rows df)))
        by (apply filter_In; split; [exact Hr | now rewrite E]).
      rewrite <- Hrows in Hin. apply filter_In in Hin. destruct Hin as [_ Hm].
      rewrite E in Hm. unfold meets_mean in Hm.
      apply andb_true_iff in Hm. destruct Hm as [_ Hm].
      unfold mean_row_count in Hm. now apply ge_mean_iff in Hm. }
    assert (Hall : forall t, In t (distinct_tickers df) ->
              forall m, In m (map (row_count df) (distinct_tickers df)) ->
              (forall z, In z (map (row_count df) (distinct_tickers df)) ->
                         m <= z) ->
              row_count df t = m).
    { intros t Ht m Hm Hleast.
      assert (Hge : m <= row_count df t) by (apply Hleast; now apply in_map).
      destruct (Nat.eq_dec (row_count df t) m) as [E | Hne]; [exact E |].
      exfalso.
      assert (Hlt : m < row_count df t) by lia.
      pose proof (list_sum_above_least _ m _ Hleast
                    (in_map (row_count df) _ _ Ht) Hlt) as Hsum.
      apply in_map_iff in Hm. destruct Hm as [t0 [<- Ht0]].
      specialize (Hmeets t0 Ht0). lia. }
    intros t t' Ht Ht'.
    destruct (least_element (map (row_count df) (distinct_tickers df)))
      as [m [Hm Hleast]].
    { destruct (distinct_tickers df); [contradiction | discriminate]. }
    rewrite (Hall t Ht m Hm Hleast), (Hall t' Ht' m Hm Hleast). reflexivity.
  - intros Hsame. apply filter_ext_in. intros r Hr.
    destruct (notna (field df "tic" r)) eqn:Hna.
    + apply meets_mean_of_bound.
      * apply distinct_tickers_In. now exists r.
      * intros t' Ht'.
        rewrite (Hsame t' (field df "tic" r)); [lia | exact Ht' |].
        apply distinct_tickers_In. now exists r.
    + unfold meets_mean. now rewrite Hna.
Qed.

(** AAA and BBB have two rows each: the four rows that have a ticker are
    returned, the row that has none is not. *)
Lemma select_equal_rows_stock_two_two_and_unlabelled :
  exists out,
    select_equal_rows_stock two_two_and_unlabelled = Ok out
    /\ length (rows two_two_and_unlabelled) = 5
    /\ length (rows out) = 4
    /\ rows out
       = filter (fun r => notna (field two_two_and_unlabelled "tic" r))
                (rows two_two_and_unlabelled).
Proof.
  eexists. split; [vm_compute; reflexivity |].
  split; [reflexivity |]. split; [reflexivity |].
  apply (select_equal_rows_stock_keeps_all_iff_equal_counts
           two_two_and_unlabelled).
  - simpl. tauto.
  - vm_compute. reflexivity.
  - intros t t' Ht Ht'. vm_compute in Ht, Ht'.
    destruct Ht as [<- | [<- | []]]; destruct Ht' as [<- | [<- | []]];
      vm_compute; reflexivity.
Defined.

(** ** [fetch_data]: what is printed, and the shape of the table *)

(** X7. The handler of line 77 never runs: whatever the accumulated frame,
    lines 69-77 print nothing, and they end normally exactly when the frame
    has eight columns. *)
Theorem rename_columns_prints_nothing (s : Locals) :
  stdout (snd (rename_columns s)) = stdout s
  /\ (fst (rename_columns s) = Ok tt
      <-> exists df, data_df s = Some df /\ length (columns df) = 8).
Proof.
  destruct (data_df s) as [df |] eqn:Hdf.
  - destruct (Nat.eq_dec (length (columns df)) 8) as [Hlen | Hlen].
    + rewrite (rename_columns_eight s df Hdf Hlen). cbn [fst snd stdout].
      split; [reflexivity |]. split; [now exists df | reflexivity].
    + rewrite (rename_columns_mismatch s df Hdf Hlen). cbn [fst snd].
      split; [reflexivity |]. split; [discriminate |].
      intros [df' [E Hlen']]. congruence.
  - unfold rename_columns, try_except, try_except_else, bind, read_data_df.
    rewrite Hdf. cbn. split; [reflexivity |]. split; [discriminate |].
    intros [df [E _]]. discriminate.
Qed.

Lemma map_fst_combine_same_length {A B : Type} (l1 : list A) (l2 : list B) :
  length l1 = length l2 -> map fst (combine l1 l2) = l1.
Proof.
  revert l2. induction l1 as [| x l1 IH]; intros [| y l2] H; simpl in *;
    try discriminate; [reflexivity |].
  f_equal. apply IH. now injection H.
Qed.

Lemma labels_with_RangeIndex (values : list (list cell)) :
  map fst (with_RangeIndex values)
  = RangeIndex (length (with_RangeIndex values)).
Proof.
  assert (Hlen : length (RangeIndex (length values)) = length values)
    by (unfold RangeIndex; now rewrite length_map, length_seq).
  unfold with_RangeIndex. unfold Row in *.
  rewrite length_combine, Hlen, Nat.min_id.
  now apply map_fst_combine_same_length.
Qed.

(** X6. Whatever the vendor returns, a table that [fetch_data] returns has
    exactly the columns date, open, high, low, close, volume, tic, and an
    unnamed index that counts its rows from 0 (line 83). *)
Theorem fetch_data_table_shape
  (yf_download : string -> string -> string -> result DataFrame)
  (as_completed : list Future -> list Future) (self : YahooDownloader)
  (s s' : Locals) (table : DataFrame) :
  fetch_data yf_download as_completed self s = (Ok table, s') ->
  index_name table = None
  /\ columns table = ["date"; "open"; "high"; "low"; "close"; "volume"; "tic"]
  /\ map fst (rows table) = RangeIndex (length (rows table)).
Proof.
  intros H. apply fetch_data_Ok in H.
  destruct H as (s2 & d & d1 & _ & _ & _ & _ & _ & ->).
  split; [reflexivity |]. split; [reflexivity |].
  unfold reset_index_drop. cbn [rows]. apply labels_with_RangeIndex.
Qed.

(** The two complete days of AAA are labelled 0 and 1. *)
Lemma fetch_data_table_shape_just_AAA :
  exists table s',
    fetch_data only_AAA in_order_of_submission just_AAA on_entry
    = (Ok table, s')
    /\ map fst (rows table) = [Num 0; Num 1]
    /\ index_name table = None
    /\ columns table
       = ["date"; "open"; "high"; "low"; "close"; "volume"; "tic"].
Proof.
  eexists. eexists. split; [vm_compute; reflexivity |].
  split; [reflexivity |].
  refine (let H := fetch_data_table_shape
                     only_AAA in_order_of_submission just_AAA on_entry _ _ _
          in conj (proj1 H) (proj1 (proj2 H))).
  vm_compute. reflexivity.
Defined.

Lemma collect_stdout (future : Future) (s s1 : Locals) (u : unit) :
  collect future s = (Ok u, s1) ->
  match future_result future with
  | Ok _ => stdout s1 = stdout s
  | Raise exc =>
      exists d, stdout s1 = stdout s ++ [generated_an_exception d exc]
  end.
Proof.
  unfold collect, try_except_else, bind, call, read_data, read_data_df, print.
  destruct (future_result future) as [r | exc]; cbn.
  - destruct (data_df s) as [df |]; [| discriminate].
    destruct (append df r) as [df' |]; [| discriminate].
    intros H. now injection H as _ <-.
  - destruct (data s) as [d |]; [| discriminate].
    intros H. injection H as _ <-. now exists d.
Qed.

Lemma for_each_collect_stdout (completed : list Future) (s s2 : Locals) :
  for_each completed collect s = (Ok tt, s2) ->
  exists lines,
    stdout s2 = stdout s ++ lines
    /\ Forall2 (fun line exc => exists d, line = generated_an_exception d exc)
               lines (raised completed).
Proof.
  revert s. induction completed as [| f rest IH]; intros s H.
  - cbn in H. injection H as <-. exists []. rewrite app_nil_r.
    split; [reflexivity | constructor].
  - cbn [for_each] in H. apply bind_Ok in H.
    destruct H as (u & s1 & Hf & H).
    destruct (IH s1 H) as [lines [Hout Hlines]].
    apply collect_stdout in Hf. unfold raised. cbn [flat_map].
    destruct (future_result f) as [r | exc].
    + exists lines. split; [congruence | exact Hlines].
    + destruct Hf as [d Hd]. exists (generated_an_exception d exc :: lines).
      split.
      * rewrite Hout, Hd, <- app_assoc. reflexivity.
      * constructor; [now exists d | exact Hlines].
Qed.

(** The state a call that returns leaves behind. *)
Lemma fetch_data_final_state
  (yf_download : string -> string -> string -> result DataFrame)
  (as_completed : list Future -> list Future) (self : YahooDownloader)
  (s s' : Locals) (table : DataFrame) :
  fetch_data yf_download as_completed self s = (Ok table, s') ->
  exists s2,
    for_each (as_completed (future_to_url yf_download self)) collect
      {| data_df := Some new_DataFrame; data := data s; stdout := stdout s |}
    = (Ok tt, s2)
    /\ s' = {| data_df := Some table;
               data := data s2;
               stdout := stdout s2 ++ [Shape_of_DataFrame (shape table)] |}.
Proof.
  intros H. unfold fetch_data in H.
  run_step H as u0 Hassign.
  apply bind_Ok in H. destruct H as (u1 & s2 & Hloop & H). destruct u1.
  run_step H as d Hd.
  run_step H as d1 Hreset.
  run_step H as u2 Hassign1.
  apply bind_Ok in H. destruct H as (u3 & s3 & Hren & H).
  exists s2. split; [exact Hloop |].
  destruct (Nat.eq_dec (length (columns d1)) 8) as [Hlen | Hlen].
  2:{ rewrite (rename_columns_mismatch
                 {| data_df := Some d1; data := data s2; stdout := stdout s2 |}
                 d1 eq_refl Hlen) in Hren.
      discriminate. }
  rewrite (rename_columns_eight
             {| data_df := Some d1; data := data s2; stdout := stdout s2 |}
             d1 eq_refl Hlen) in Hren.
  injection Hren as _ <-. cbn [data_df data stdout] in H.
  run_step H as d2 Hd2.
  run_step H as date Hdate.
  run_step H as date' Hdate'.
  run_step H as u4 Hassign2.
  run_step H as d3 Hd3.
  run_step H as u5 Hassign3.
  run_step H as d4 Hd4.
  run_step H as u6 Hassign4.
  run_step H as d5 Hd5. injection Hd5 as <-.
  run_step H as u7 Hprint.
  apply read_data_df_Ok in H. destruct H as [H ->].
  cbn [data_df] in H. injection H as <-. reflexivity.
Qed.

(** X8. A call that returns a table has printed one line per fetch that
    raised, in the order of completion and with that fetch's exception, and
    after them the shape of the table returned: its number of rows, and 7. *)
Theorem fetch_data_prints
  (yf_download : string -> string -> string -> result DataFrame)
  (as_completed : list Future -> list Future) (self : YahooDownloader)
  (s' : Locals) (table : DataFrame) :
  fetch_data yf_download as_completed self on_entry = (Ok table, s') ->
  exists lines,
    stdout s' = lines ++ [Shape_of_DataFrame (length (rows table), 7)]
    /\ Forall2 (fun line exc => exists d, line = generated_an_exception d exc)
               lines
               (raised (as_completed (future_to_url yf_download self))).
Proof.
  intros H.
  assert (Hcols : length (columns table) = 7).
  { pose proof H as H'. apply fetch_data_Ok in H'.
    destruct H' as (s2 & d & d1 & _ & _ & _ & _ & _ & ->). reflexivity. }
  apply fetch_data_final_state in H. destruct H as (s2 & Hloop & ->).
  apply for_each_collect_stdout in Hloop.
  destruct Hloop as [lines [Hout Hlines]]. cbn [stdout on_entry] in Hout.
  exists lines. split; [| exact Hlines].
  cbn [stdout]. rewrite Hout. cbn [app].
  unfold shape. now rewrite Hcols.
Qed.

(** Of AAA, BBB and CCC the vendor has AAA only: two lines, for BBB and for
    CCC, and the shape of AAA's two rows. *)
Lemma fetch_data_prints_AAA_BBB_and_CCC :
  exists table s' lines,
    fetch_data only_AAA in_order_of_submission AAA_BBB_and_CCC on_entry
    = (Ok table, s')
    /\ stdout s' = lines ++ [Shape_of_DataFrame (2, 7)]
    /\ Forall2 (fun line exc => exists d, line = generated_an_exception d exc)
               lines
               [OtherException "No data found, symbol may be delisted";
                OtherException "No data found, symbol may be delisted"].
Proof.
  set (run := fetch_data only_AAA in_order_of_submission AAA_BBB_and_CCC
                on_entry).
  set (table := match fst run with Ok t => t | Raise _ => new_DataFrame end).
  assert (Hrun : run = (Ok table, snd run)) by (vm_compute; reflexivity).
  destruct (fetch_data_prints only_AAA in_order_of_submission AAA_BBB_and_CCC
              (snd run) table Hrun) as [lines [Hout Hlines]].
  exists table, (snd run), lines.
  split; [exact Hrun |]. split; [exact Hout | exact Hlines].
Defined.

(** ** [fetch_data]: fetches that fail before any has succeeded *)

(** X1. Whatever the vendor and the list, when the future that completes
    first has raised, [fetch_data] ends at line 63 with [UnboundLocalError]
    for [data]: nothing has been printed, no later future is looked at, and
    no table is returned. *)
Theorem fetch_data_aborts_when_first_completed_fetch_raised
  (yf_download : string -> string -> string -> result DataFrame)
  (as_completed : list Future -> list Future) (self : YahooDownloader)
  (future : Future) (rest : list Future) (exc : PyException) :
  as_completed (future_to_url yf_download self) = future :: rest ->
  future_result future = Raise exc ->
  fetch_data yf_download as_completed self on_entry
  = (Raise (UnboundLocalError "data"),
     {| data_df := Some new_DataFrame; data := None; stdout := [] |}).
Proof.
  intros Hfirst Hexc.
  exact (fetch_data_first_future_raised _ _ _ _ _ _ Hfirst Hexc).
Qed.

(** BBB is submitted last and completes first. *)
Lemma fetch_data_aborts_on_BBB_first :
  map url (last_submitted_first (future_to_url only_AAA AAA_and_BBB))
  = ["BBB"; "AAA"]
  /\ fst (fetch_data only_AAA last_submitted_first AAA_and_BBB on_entry)
     = Raise (UnboundLocalError "data").
Proof.
  split; [reflexivity |].
  erewrite fetch_data_aborts_when_first_completed_fetch_raised;
    reflexivity.
Defined.

(** BBB and CCC, neither of which the vendor has. *)
Lemma fetch_data_every_fetch_failed_BBB_and_CCC :
  fst (fetch_data only_AAA in_order_of_submission BBB_and_CCC on_entry)
  = Raise (UnboundLocalError "data").
Proof.
  apply fetch_data_every_fetch_failed.
  - intros l. apply Permutation_refl.
  - discriminate.
  - intros tic [<- | [<- | []]]; eexists; reflexivity.
Defined.

(** ** [yf_downloader] *)

Lemma nth_assign_where (label : string) (v : cell) (cols : list string)
  (cells : list cell) (i : nat) :
  length cells = length cols ->
  position label cols = Some i ->
  nth i (assign_where label cols v cells) NaN = v.
Proof.
  revert cells i. induction cols as [| c cols IH]; intros cells i Hlen Hpos;
    [discriminate |].
  destruct cells as [| x cells]; [discriminate |].
  cbn [position] in Hpos. cbn [assign_where].
  destruct (String.eqb c label).
  - injection Hpos as <-. reflexivity.
  - destruct (position label cols) as [j |] eqn:E; [| discriminate].
    injection Hpos as <-. cbn [nth]. apply IH; [| reflexivity].
    now injection Hlen.
Qed.

Lemma position_snoc (label : string) (cols : list string) :
  ~ In label cols -> position label (cols ++ [label]) = Some (length cols).
Proof.
  induction cols as [| c cols IH]; intros H; cbn.
  - now rewrite String.eqb_refl.
  - destruct (String.eqb_spec c label) as [-> | _].
    + exfalso. apply H. now left.
    + rewrite IH; [reflexivity |]. intros Hin. apply H. now right.
Qed.

Lemma has_column_In (label : string) (cols : list string) :
  has_column label cols = true <-> In label cols.
Proof.
  unfold has_column. rewrite existsb_exists. split.
  - intros [c [Hc E]]. apply String.eqb_eq in E. now subst.
  - intros H. exists label. split; [exact H | apply String.eqb_refl].
Qed.

(** X12. [yf_downloader] passes the vendor's exception on, and tags every
    row of a frame the vendor returns: the frame has as many rows, under the
    same index labels, and the [tic] of each is the ticker, whether or not
    the vendor's frame had a [tic] column of its own. *)
Theorem yf_downloader_tags_every_row
  (yf_download : string -> string -> string -> result DataFrame)
  (self : YahooDownloader) (tic : string) :
  (forall exc,
     yf_download tic (start_date self) (end_date self) = Raise exc ->
     yf_downloader yf_download self tic = Raise exc)
  /\ (forall df,
        yf_download tic (start_date self) (end_date self) = Ok df ->
        rectangular df ->
        exists r,
          yf_downloader yf_download self tic = Ok r
          /\ index_name r = index_name df
          /\ map fst (rows r) = map fst (rows df)
          /\ In "tic" (columns r)
          /\ Forall (fun row => field r "tic" row = Str tic) (rows r)).
Proof.
  unfold yf_downloader. split; [intros exc ->; reflexivity |].
  intros df -> Hrect. eexists. split; [reflexivity |].
  unfold setitem_scalar, set_label, set_cell, field. cbn [index_name columns rows].
  split; [reflexivity |]. split; [now rewrite map_map |].
  unfold rectangular in Hrect. rewrite Forall_forall in Hrect.
  destruct (has_column "tic" (columns df)) eqn:Hhas.
  - split; [now apply has_column_In |].
    apply has_column_In in Hhas.
    destruct (position_In _ _ Hhas) as [i Hi]. rewrite Hi.
    apply Forall_forall. intros row Hrow. apply in_map_iff in Hrow.
    destruct Hrow as [r0 [<- Hr0]]. cbn [snd].
    apply nth_assign_where; [now apply Hrect | exact Hi].
  - assert (Hnot : ~ In "tic" (columns df)).
    { intros Hin. apply has_column_In in Hin. congruence. }
    split; [apply in_or_app; right; now left |].
    rewrite (position_snoc _ _ Hnot).
    apply Forall_forall. intros row Hrow. apply in_map_iff in Hrow.
    destruct Hrow as [r0 [<- Hr0]]. cbn [snd].
    rewrite <- (Hrect r0 Hr0), app_nth2, Nat.sub_diag; [reflexivity | lia].
Qed.

(** ** [fetch_data] over a vendor with one layout *)

Lemma bind_eval {A B : Type} (c : Py A) (k : A -> Py B) (s s1 : Locals)
  (a : A) :
  c s = (Ok a, s1) -> bind c k s = k a s1.
Proof. unfold bind. now intros ->. Qed.

Lemma collect_returned (future : Future) (s : Locals) (r df df' : DataFrame) :
  future_result future = Ok r ->
  data_df s = Some df ->
  append df r = Ok df' ->
  collect future s
  = (Ok tt, {| data_df := Some df'; data := Some r; stdout := stdout s |}).
Proof.
  intros Hres Hdf Happ.
  unfold collect, try_except_else, bind, call, read_data, read_data_df.
  rewrite Hres. cbn. rewrite Hdf, Happ. reflexivity.
Qed.

Lemma collect_raised (future : Future) (s : Locals) (exc : PyException)
  (d : DataFrame) :
  future_result future = Raise exc ->
  data s = Some d ->
  collect future s
  = (Ok tt, {| data_df := data_df s; data := data s;
               stdout := stdout s ++ [generated_an_exception d exc] |}).
Proof.
  intros Hres Hd.
  unfold collect, try_except_else, bind, call, read_data, print.
  rewrite Hres. destruct s as [sdf sdata sout]. cbn in *. subst sdata.
  reflexivity.
Qed.

Lemma In_fetched_rows (completed : list Future) (row : Row) :
  In row (fetched_rows completed)
  <-> exists f r, In f completed /\ future_result f = Ok r /\ In row (rows r).
Proof.
  unfold fetched_rows. rewrite in_flat_map. split.
  - intros [f [Hf Hrow]]. destruct (future_result f) as [r |] eqn:E;
      [| contradiction].
    now exists f, r.
  - intros [f [r [Hf [E Hrow]]]]. exists f. split; [exact Hf |].
    now rewrite E.
Qed.

(** A call that went through the loop and whose accumulated frame passes
    lines 68-80 returns a table. *)
Lemma fetch_data_returns_after_loop
  (yf_download : string -> string -> string -> result DataFrame)
  (as_completed : list Future -> list Future) (self : YahooDownloader)
  (s s2 : Locals) (d d1 : DataFrame) :
  for_each (as_completed (future_to_url yf_download self)) collect
    {| data_df := Some new_DataFrame; data := data s; stdout := stdout s |}
  = (Ok tt, s2) ->
  data_df s2 = Some d ->
  reset_index d = Ok d1 ->
  length (columns d1) = 8 ->
  Forall is_timestamp (column_values 0 (renamed d1)) ->
  exists table s', fetch_data yf_download as_completed self s = (Ok table, s').
Proof.
  intros Hloop Hd Hreset Hlen Hts.
  assert (Hdate : apply strftime (column_values 0 (renamed d1))
                  = Ok (map date_string (column_values 0 (renamed d1)))).
  { induction Hts as [| x l [t ->] _ IH]; [reflexivity |].
    cbn. now rewrite IH. }
  unfold fetch_data.
  erewrite bind_eval by reflexivity.
  erewrite bind_eval by exact Hloop.
  erewrite bind_eval by (unfold read_data_df; rewrite Hd; reflexivity).
  erewrite bind_eval by (unfold call; rewrite Hreset; reflexivity).
  erewrite bind_eval by reflexivity.
  erewrite bind_eval
    by (apply (rename_columns_eight _ d1); [reflexivity | exact Hlen]).
  erewrite bind_eval by reflexivity.
  erewrite bind_eval by reflexivity.
  erewrite bind_eval by (unfold call; rewrite Hdate; reflexivity).
  eexists. eexists. reflexivity.
Qed.

Section Uniform_layout.

Variable yf_download : string -> string -> string -> result DataFrame.
Variable as_completed : list Future -> list Future.
Variable self : YahooDownloader.

(** The column labels of the vendor's frames: any number of them, the same
    for every ticker of the list, and none of them [tic]. *)
Variable vendor_columns : list string.
Hypothesis no_tic_label : ~ In "tic" vendor_columns.
Hypothesis uniform_layout :
  forall tic df,
    In tic (ticker_list self) ->
    yf_download tic (start_date self) (end_date self) = Ok df ->
    columns df = vendor_columns.

Lemma future_frame (f : Future) (r : DataFrame) :
  In f (future_to_url yf_download self) ->
  future_result f = Ok r ->
  exists tic df,
    In tic (ticker_list self)
    /\ yf_download tic (start_date self) (end_date self) = Ok df
    /\ r = {| index_name := index_name df;
              columns := vendor_columns ++ ["tic"];
              rows := map (fun vr => (fst vr, snd vr ++ [Str tic])) (rows df) |}.
Proof.
  intros Hin Hres. unfold future_to_url in Hin. apply in_map_iff in Hin.
  destruct Hin as [tic [<- Htic]]. cbn [future_result] in Hres.
  unfold yf_downloader in Hres.
  destruct (yf_download tic (start_date self) (end_date self)) as [df |] eqn:E;
    [| discriminate].
  injection Hres as <-. exists tic, df. split; [exact Htic |].
  split; [exact E |].
  unfold setitem_scalar, set_label, set_cell.
  rewrite (uniform_layout tic df Htic E), (has_column_false _ _ no_tic_label).
  reflexivity.
Qed.

Lemma tagged_not_empty (x : DataFrame) :
  columns x = vendor_columns ++ ["tic"] -> is_empty x = false.
Proof.
  intros Hx. unfold is_empty. rewrite Hx, length_app.
  apply Nat.eqb_neq. simpl. lia.
Qed.

Lemma append_tagged (d r : DataFrame) :
  columns d = vendor_columns ++ ["tic"] ->
  columns r = vendor_columns ++ ["tic"] ->
  append d r = Ok {| index_name := concat_index_name d r;
                     columns := columns d;
                     rows := rows d ++ rows r |}.
Proof.
  intros Hd Hr. unfold append.
  rewrite (tagged_not_empty d Hd), (tagged_not_empty r Hr).
  unfold labels_eqb.
  destruct (list_eq_dec string_dec (columns d) (columns r)); [reflexivity |].
  congruence.
Qed.

(** The loop, once it has ended: the accumulated frame holds the rows of the
    frames fetched, in the order of completion. *)
Lemma for_each_collect_fetched (completed : list Future) (s s2 : Locals)
  (d : DataFrame) :
  incl completed (future_to_url yf_download self) ->
  for_each completed collect s = (Ok tt, s2) ->
  data_df s = Some d ->
  d = new_DataFrame \/ columns d = vendor_columns ++ ["tic"] ->
  exists d2,
    data_df s2 = Some d2
    /\ (d2 = new_DataFrame \/ columns d2 = vendor_columns ++ ["tic"])
    /\ rows d2 = rows d ++ fetched_rows completed.
Proof.
  revert s d. induction completed as [| f rest IH]; intros s d Hincl H Hd Hcols.
  - cbn in H. injection H as <-. exists d. rewrite app_nil_r. now split.
  - cbn [for_each] in H. apply bind_Ok in H.
    destruct H as (u & s1 & Hf & H).
    assert (Hrest : incl rest (future_to_url yf_download self))
      by (intros x Hx; apply Hincl; now right).
    apply collect_Ok in Hf. unfold fetched_rows. cbn [flat_map].
    fold (fetched_rows rest).
    destruct Hf as [[exc [Hres Hs1]] | (r & df & df' & Hres & Hdf & Happ & Hs1)].
    + rewrite Hres. cbn [app]. apply (IH s1 d Hrest H); [congruence | exact Hcols].
    + rewrite Hres. rewrite Hd in Hdf. injection Hdf as <-.
      destruct (future_frame f r (Hincl f (or_introl eq_refl)) Hres)
        as (tic & vdf & _ & _ & Hr).
      assert (Hrcols : columns r = vendor_columns ++ ["tic"])
        by (rewrite Hr; reflexivity).
      destruct (IH s1 df' Hrest H Hs1) as [d2 [Hd2 [Hc2 Hrows2]]].
      * right. destruct Hcols as [-> | Hcols].
        -- cbn in Happ. now injection Happ as <-.
        -- rewrite (append_tagged d r Hcols Hrcols) in Happ.
           now injection Happ as <-.
      * exists d2. split; [exact Hd2 |]. split; [exact Hc2 |].
        rewrite Hrows2, app_assoc. f_equal.
        destruct Hcols as [-> | Hcols].
        -- cbn in Happ. now injection Happ as <-.
        -- rewrite (append_tagged d r Hcols Hrcols) in Happ.
           now injection Happ as <-.
Qed.

(** The accumulated frame of a call that returned. *)
Lemma fetch_data_fetched (s s' : Locals) (table : DataFrame) :
  yields_each_once as_completed ->
  fetch_data yf_download as_completed self s = (Ok table, s') ->
  length vendor_columns = 6
  /\ map snd (rows table)
     = filter (forallb notna)
         (map normalized
            (fetched_rows (as_completed (future_to_url yf_download self)))).
Proof.
  intros Hperm H. apply fetch_data_rows in H.
  destruct H as (s2 & d & Hloop & Hd & Hlen & _ & _ & Hrows).
  apply (for_each_collect_fetched _ _ _ new_DataFrame) in Hloop;
    [| intros x Hx; now apply (Permutation_in _ (Hperm _))
     | reflexivity | now left].
  destruct Hloop as [d2 [Hd2 [Hcols Hfetched]]].
  rewrite Hd in Hd2. injection Hd2 as <-. cbn [rows app] in Hfetched.
  destruct Hcols as [-> | Hcols]; [discriminate |].
  rewrite Hcols, length_app in Hlen. cbn in Hlen.
  split; [lia |]. now rewrite Hrows, Hfetched.
Qed.

(** X5. When the vendor's frames have another number of columns than the
    six that line 71 counts on, no call returns a table, whatever the tickers
    and the order of completion: every call ends in an exception. *)
Theorem fetch_data_fails_on_another_width :
  length vendor_columns <> 6 ->
  yields_each_once as_completed ->
  exists exc s',
    fetch_data yf_download as_completed self on_entry = (Raise exc, s').
Proof.
  intros Hwidth Hperm.
  destruct (fetch_data yf_download as_completed self on_entry)
    as [[table | exc] s'] eqn:E.
  - destruct (fetch_data_fetched _ _ _ Hperm E) as [Hsix _]. contradiction.
  - now exists exc, s'.
Qed.


(** *** When a table is returned *)

(** The name of the index of the vendor's frames ([Date], with Yahoo). *)
Variable index_label : string.

(** X3. A table is returned when the vendor's frames have six columns, an
    index of timestamps under a name that is not one of the columns, and the
    fetch that completes first has succeeded: later fetches may fail. *)
Theorem fetch_data_returns_when_first_fetch_succeeded
  (first : Future) (rest : list Future) (r : DataFrame) :
  length vendor_columns = 6 ->
  ~ In index_label (vendor_columns ++ ["tic"]) ->
  (forall tic df,
     In tic (ticker_list self) ->
     yf_download tic (start_date self) (end_date self) = Ok df ->
     index_name df = Some index_label
     /\ Forall (fun vr => is_timestamp (fst vr)) (rows df)) ->
  yields_each_once as_completed ->
  as_completed (future_to_url yf_download self) = first :: rest ->
  future_result first = Ok r ->
  exists table s',
    fetch_data yf_download as_completed self on_entry = (Ok table, s').
Proof.
  intros Hsix Hclash Hindex Hperm Hfirst Hres.
  assert (Hincl : incl (first :: rest) (future_to_url yf_download self)).
  { intros x Hx. rewrite <- Hfirst in Hx.
    now apply (Permutation_in _ (Hperm _)). }
  assert (Hframe : forall f r', In f (first :: rest) ->
            future_result f = Ok r' ->
            columns r' = vendor_columns ++ ["tic"]
            /\ index_name r' = Some index_label
            /\ Forall (fun row => is_timestamp (fst row)) (rows r')).
  { intros f r' Hf Hr'.
    destruct (future_frame f r' (Hincl f Hf) Hr') as (tic & df & Htic & Hdf & ->).
    destruct (Hindex tic df Htic Hdf) as [Hname Hts].
    cbn [columns index_name rows]. split; [reflexivity |].
    split; [exact Hname |].
    apply Forall_forall. intros row Hrow. apply in_map_iff in Hrow.
    destruct Hrow as [vr [<- Hvr]]. cbn [fst].
    rewrite Forall_forall in Hts. now apply Hts. }
  assert (Hruns : forall completed s d dat,
            incl completed (first :: rest) ->
            data_df s = Some d -> data s = Some dat ->
            columns d = vendor_columns ++ ["tic"] ->
            index_name d = Some index_label ->
            exists s2 d2,
              for_each completed collect s = (Ok tt, s2)
              /\ data_df s2 = Some d2
              /\ columns d2 = vendor_columns ++ ["tic"]
              /\ index_name d2 = Some index_label
              /\ rows d2 = rows d ++ fetched_rows completed).
  { induction completed as [| f fs IH]; intros s d dat Hin Hd Hdat Hcols Hname.
    - exists s, d. rewrite app_nil_r. now repeat split.
    - assert (Hfs : incl fs (first :: rest))
        by (intros x Hx; apply Hin; now right).
      cbn [for_each]. unfold fetched_rows. cbn [flat_map].
      fold (fetched_rows fs).
      destruct (future_result f) as [r' | exc] eqn:Ef.
      + destruct (Hframe f r' (Hin f (or_introl eq_refl)) Ef)
          as [Hrc [Hrn _]].
        pose proof (append_tagged d r' Hcols Hrc) as Happ.
        set (d' := {| index_name := concat_index_name d r';
                      columns := columns d;
                      rows := rows d ++ rows r' |}) in *.
        assert (Hname' : index_name d' = Some index_label).
        { cbn [d' index_name]. unfold concat_index_name.
          rewrite Hname, Hrn, String.eqb_refl. reflexivity. }
        rewrite (bind_eval _ _ s _ tt (collect_returned f s r' d d' Ef Hd Happ)).
        destruct (IH {| data_df := Some d'; data := Some r';
                        stdout := stdout s |}
                     d' r' Hfs eq_refl eq_refl Hcols Hname')
          as (s2 & d2 & Hrun & Hd2 & Hc2 & Hn2 & Hr2).
        exists s2, d2. split; [exact Hrun |]. split; [exact Hd2 |].
        split; [exact Hc2 |]. split; [exact Hn2 |].
        rewrite Hr2. cbn [d' rows]. now rewrite app_assoc.
      + rewrite (bind_eval _ _ s _ tt (collect_raised f s exc dat Ef Hdat)).
        destruct (IH {| data_df := data_df s; data := data s;
                        stdout := stdout s ++ [generated_an_exception dat exc] |}
                     d dat Hfs Hd Hdat Hcols Hname)
          as (s2 & d2 & Hrun & Hrest).
        exists s2, d2. split; [exact Hrun | exact Hrest]. }
  destruct (Hframe first r (or_introl eq_refl) Hres) as [Hrc [Hrn _]].
  destruct (Hruns rest
              {| data_df := Some r; data := Some r; stdout := [] |} r r
              (fun x Hx => or_intror Hx) eq_refl eq_refl Hrc Hrn)
    as (s2 & d2 & Hrun & Hd2 & Hc2 & Hn2 & Hr2).
  assert (Hloop : for_each (as_completed (future_to_url yf_download self))
                    collect
                    {| data_df := Some new_DataFrame; data := data on_entry;
                       stdout := stdout on_entry |}
                  = (Ok tt, s2)).
  { rewrite Hfirst. cbn [for_each].
    rewrite (bind_eval _ _ _ _ tt
               (collect_returned first
                  {| data_df := Some new_DataFrame; data := data on_entry;
                     stdout := stdout on_entry |}
                  r new_DataFrame r Hres eq_refl eq_refl)).
    exact Hrun. }
  assert (Hnone : has_column index_label (columns d2) = false)
    by (rewrite Hc2; now apply has_column_false).
  eapply (fetch_data_returns_after_loop _ _ _ _ s2 d2).
  - exact Hloop.
  - exact Hd2.
  - unfold reset_index. rewrite Hn2, Hnone. reflexivity.
  - cbn [columns length]. rewrite Hc2, length_app, Hsix. reflexivity.
  - unfold column_values, renamed. cbn [rows]. rewrite map_map. cbn [snd].
    rewrite <- (map_map snd (fun c => nth 0 (use_adjcp c) NaN)).
    rewrite values_with_RangeIndex, map_map.
    apply Forall_forall. intros x Hx. apply in_map_iff in Hx.
    destruct Hx as [row [<- Hrow]]. cbn [nth].
    change (is_timestamp (fst row)).
    rewrite Hr2 in Hrow.
    assert (Hall : In row (fetched_rows (first :: rest))).
    { unfold fetched_rows. cbn [flat_map]. rewrite Hres. exact Hrow. }
    apply In_fetched_rows in Hall. destruct Hall as (f & r' & Hf & Hr' & Hin).
    destruct (Hframe f r' Hf Hr') as [_ [_ Hts]].
    rewrite Forall_forall in Hts. now apply Hts.
Qed.

End Uniform_layout.

(** *** Examples *)

Lemma only_AAA_uniform (self : YahooDownloader) (tic : string)
  (df : DataFrame) :
  only_AAA tic (start_date self) (end_date self) = Ok df ->
  columns df = Yahoo_columns.
Proof. intros H. now destruct (only_AAA_layout self tic df H). Qed.

(** Five columns from the vendor make seven after [reset_index], not eight. *)
Lemma fetch_data_fails_without_adjusted_close :
  length ["Open"; "High"; "Low"; "Close"; "Volume"] = 5
  /\ exists exc s',
       fetch_data without_adjusted_close in_order_of_submission just_AAA
         on_entry
       = (Raise exc, s').
Proof.
  split; [reflexivity |].
  apply (fetch_data_fails_on_another_width
           without_adjusted_close in_order_of_submission just_AAA
           ["Open"; "High"; "Low"; "Close"; "Volume"]).
  - simpl. intuition discriminate.
  - intros tic df _ H. now injection H as <-.
  - simpl. lia.
  - exact in_order_of_submission_yields_each_once.
Defined.


(** AAA completes first and succeeds, BBB fails after it: a table is
    returned. *)
Lemma fetch_data_returns_for_AAA_and_BBB :
  exists table s',
    fetch_data only_AAA in_order_of_submission AAA_and_BBB on_entry
    = (Ok table, s').
Proof.
  eapply (fetch_data_returns_when_first_fetch_succeeded
            only_AAA in_order_of_submission AAA_and_BBB Yahoo_columns
            Yahoo_columns_no_tic
            (fun tic df _ => only_AAA_uniform AAA_and_BBB tic df)
            "Date").
  - reflexivity.
  - simpl. intuition discriminate.
  - intros tic df _ H. unfold only_AAA in H.
    destruct (String.eqb tic "AAA"); [| discriminate].
    injection H as <-. split; [reflexivity |].
    repeat constructor; eexists; reflexivity.
  - exact in_order_of_submission_yields_each_once.
  - reflexivity.
  - reflexivity.
Defined.

(** ** [fetch_data]: the exceptions that reach the caller *)

Lemma bind_Raise {A B : Type} (c : Py A) (k : A -> Py B) (s s2 : Locals)
  (e : PyException) :
  bind c k s = (Raise e, s2) ->
  c s = (Raise e, s2)
  \/ exists a s1, c s = (Ok a, s1) /\ k a s1 = (Raise e, s2).
Proof.
  unfold bind. destruct (c s) as [[a | e'] s1]; intros H.
  - right. now exists a, s1.
  - left. injection H as -> ->. reflexivity.
Qed.

Lemma append_Raise (a b : DataFrame) (e : PyException) :
  append a b = Raise e -> e = ValueError.
Proof.
  unfold append.
  destruct (is_empty a); [discriminate |].
  destruct (is_empty b); [discriminate |].
  destruct (labels_eqb (columns a) (columns b)); [discriminate |].
  destruct (unique_labels (columns a) && unique_labels (columns b));
    [discriminate |].
  intros H. now injection H.
Qed.

Lemma reset_index_Raise (d : DataFrame) (e : PyException) :
  reset_index d = Raise e -> e = ValueError.
Proof.
  unfold reset_index. destruct (has_column _ (columns d)); [| discriminate].
  intros H. now injection H.
Qed.

Lemma apply_strftime_Raise (s : Series) (e : PyException) :
  apply strftime s = Raise e ->
  e = ValueError \/ e = AttributeError "strftime".
Proof.
  induction s as [| x s IH]; [discriminate |]. cbn [apply].
  destruct x as [| | q | str | t]; cbn [strftime];
    try (intros H; injection H as <-; now (left + right)).
  destruct (apply strftime s) as [ys |]; [discriminate |].
  intros H. injection H as <-. now apply IH.
Qed.

Lemma collect_Raise (future : Future) (s s1 : Locals) (e : PyException) :
  collect future s = (Raise e, s1) ->
  data_df s <> None ->
  e = UnboundLocalError "data" \/ e = ValueError.
Proof.
  unfold collect, try_except_else, bind, call, read_data, read_data_df, print.
  destruct (future_result future) as [r | exc]; cbn.
  - destruct (data_df s) as [df |]; [| congruence].
    destruct (append df r) as [df' |] eqn:E; [discriminate |].
    intros H _. injection H as <- _. right. now apply (append_Raise df r).
  - destruct (data s); [discriminate |].
    intros H _. injection H as <- _. now left.
Qed.

Lemma for_each_collect_Raise (completed : list Future) (s s2 : Locals)
  (e : PyException) :
  for_each completed collect s = (Raise e, s2) ->
  data_df s <> None ->
  e = UnboundLocalError "data" \/ e = ValueError.
Proof.
  revert s. induction completed as [| f rest IH]; intros s H Hdf;
    [discriminate |].
  cbn [for_each] in H. apply bind_Raise in H.
  destruct H as [H | (u & s1 & Hf & H)].
  - now apply (collect_Raise f s s2).
  - apply (IH s1 H). apply collect_Ok in Hf.
    destruct Hf as [[exc [_ Hs1]] | (r & df & df' & _ & _ & _ & Hs1)];
      congruence.
Qed.

Lemma for_each_collect_bound (completed : list Future) (s s2 : Locals) :
  for_each completed collect s = (Ok tt, s2) ->
  data_df s <> None -> data_df s2 <> None.
Proof.
  revert s. induction completed as [| f rest IH]; intros s H Hdf.
  - cbn in H. now injection H as <-.
  - cbn [for_each] in H. apply bind_Ok in H.
    destruct H as (u & s1 & Hf & H). apply (IH s1 H).
    apply collect_Ok in Hf.
    destruct Hf as [[exc [_ Hs1]] | (r & df & df' & _ & _ & _ & Hs1)];
      congruence.
Qed.



(** A vendor frame with a [tic] column of its own: the column is overwritten
    with the ticker asked for. *)
Lemma yf_downloader_tags_vendor_with_its_own_tic :
  exists r,
    yf_downloader with_its_own_tic just_AAA "AAA" = Ok r
    /\ Forall (fun row => field r "tic" row = Str "AAA") (rows r).
Proof.
  destruct (proj2 (yf_downloader_tags_every_row with_its_own_tic just_AAA
                     "AAA") _ eq_refl)
    as (r & Hr & _ & _ & _ & Htic).
  - repeat constructor.
  - exists r. split; [exact Hr | exact Htic].
Defined.
